(** * mSCP notebook: a shallow embedding of the notebook cells

    The notebook [mscp-notebook.py] is a marimo application: each cell is a
    Python function over the values of the UI widgets, the filesystem and the
    [git] / [uv] subprocesses.  This development embeds the cells that carry
    the control logic

    - the branch catalogue (the filtering loop over the remote branches),
    - the repository sync cell (clone / switch / pull),
    - the baseline catalogue (label derivation and the display dictionary),
    - the generation cell (the precondition chain),

    and states the properties of the specification over them.

    Conventions.  Python [str] values are [string]s holding the UTF-8 bytes of
    the text; the case conversions below act on the ASCII letters and leave every
    other byte unchanged, and [strip] removes the white space of [str.isspace],
    ASCII or not, read off those bytes.  A Python [dict] is an association list kept in
    insertion order.  The filesystem and the subprocesses are an abstract
    world with a transition function; cells run in a state-and-exception
    monad whose state survives a raised exception, as Python locals do. *)

From Stdlib Require Import String Ascii List Bool Arith ZArith Lia.
From Stdlib Require Import Sorted Permutation DecimalString.
Import ListNotations.

Open Scope list_scope.
Open Scope string_scope.

(* ================================================================== *)
(** * Python [str] operations *)
(* ================================================================== *)

Module PyStr.

(** The newline character of the f-strings. *)
Definition nl : string := String (ascii_of_nat 10) EmptyString.

Definition is_lower (c : ascii) : bool :=
  let n := nat_of_ascii c in (97 <=? n)%nat && (n <=? 122)%nat.

Definition is_upper (c : ascii) : bool :=
  let n := nat_of_ascii c in (65 <=? n)%nat && (n <=? 90)%nat.

Definition to_upper (c : ascii) : ascii :=
  if is_lower c then ascii_of_nat (nat_of_ascii c - 32) else c.

Definition to_lower (c : ascii) : ascii :=
  if is_upper c then ascii_of_nat (nat_of_ascii c + 32) else c.

(** [s.upper()] and [s.lower()]. *)
Fixpoint upper (s : string) : string :=
  match s with
  | EmptyString => EmptyString
  | String c s' => String (to_upper c) (upper s')
  end.

Fixpoint lower (s : string) : string :=
  match s with
  | EmptyString => EmptyString
  | String c s' => String (to_lower c) (lower s')
  end.

(** [s.title()]: a cased character is upper-cased when the previous
    character is not cased, and lower-cased when it is. *)
Fixpoint title_from (previous_is_cased : bool) (s : string) : string :=
  match s with
  | EmptyString => EmptyString
  | String c s' =>
      if is_lower c then
        String (if previous_is_cased then c else to_upper c) (title_from true s')
      else if is_upper c then
        String (if previous_is_cased then to_lower c else c) (title_from true s')
      else
        String c (title_from false s')
  end.

Definition title (s : string) : string := title_from false s.

(** [s.startswith(p)]. *)
Definition startswith (s p : string) : bool := String.prefix p s.

(** [s.startswith((p1, ..., pn))]: a tuple of prefixes. *)
Definition startswith_any (s : string) (ps : list string) : bool :=
  existsb (startswith s) ps.

(** [sub in s]. *)
Fixpoint contains (sub s : string) : bool :=
  String.prefix sub s ||
  match s with
  | EmptyString => false
  | String _ s' => contains sub s'
  end.

(** [s.endswith(suf)]. *)
Fixpoint endswith (s suf : string) : bool :=
  String.eqb s suf ||
  match s with
  | EmptyString => false
  | String _ s' => endswith s' suf
  end.

(** [s.replace(old, new)] for a non-empty [old]: every non-overlapping
    occurrence, leftmost first.  [skip] counts the characters of an
    occurrence already replaced that are still to be dropped. *)
Fixpoint replace_from (skip : nat) (old new s : string) : string :=
  match s with
  | EmptyString => EmptyString
  | String c s' =>
      match skip with
      | S k => replace_from k old new s'
      | O =>
          if String.prefix old s
          then new ++ replace_from (String.length old - 1) old new s'
          else String c (replace_from 0 old new s')
      end
  end.

Definition replace (s old new : string) : string := replace_from 0 old new s.

(** [str.isspace] on the ASCII range: TAB, LF, VT, FF, CR, FS, GS, RS, US
    and the space. *)
Definition is_space (c : ascii) : bool :=
  let n := nat_of_ascii c in
  ((9 <=? n)%nat && (n <=? 13)%nat) || ((28 <=? n)%nat && (n <=? 32)%nat).

(** A character of the ASCII range. *)
Definition is_ascii (c : ascii) : bool := (nat_of_ascii c <? 128)%nat.

Definition byte (n : nat) : ascii := ascii_of_nat n.

(** [str.isspace] beyond the ASCII range, on the UTF-8 bytes of a
    character: U+0085 and U+00A0 take two bytes. *)
Definition two_byte_space (c d : ascii) : bool :=
  Ascii.eqb c (byte 194) && (Ascii.eqb d (byte 133) || Ascii.eqb d (byte 160)).

(** U+1680, U+2000 to U+200A, U+2028, U+2029, U+202F, U+205F and U+3000
    take three bytes. *)
Definition three_byte_space (c d e : ascii) : bool :=
  (Ascii.eqb c (byte 225) && (Ascii.eqb d (byte 154) && Ascii.eqb e (byte 128)))
  || (Ascii.eqb c (byte 226)
      && ((Ascii.eqb d (byte 128)
           && (((128 <=? nat_of_ascii e)%nat && (nat_of_ascii e <=? 138)%nat)
               || Ascii.eqb e (byte 168) || Ascii.eqb e (byte 169)
               || Ascii.eqb e (byte 175)))
          || (Ascii.eqb d (byte 129) && Ascii.eqb e (byte 159))))
  || (Ascii.eqb c (byte 227) && (Ascii.eqb d (byte 128) && Ascii.eqb e (byte 128))).

(** [s.lstrip()]: the white-space characters at the start are dropped,
    the one-byte ones and the two- and three-byte ones. *)
Fixpoint lstrip (s : string) : string :=
  match s with
  | EmptyString => EmptyString
  | String c s1 =>
      if is_space c then lstrip s1
      else
        match s1 with
        | EmptyString => s
        | String d s2 =>
            if two_byte_space c d then lstrip s2
            else
              match s2 with
              | EmptyString => s
              | String e s3 =>
                  if three_byte_space c d e then lstrip s3 else s
              end
        end
  end.

(** The text holds white space only. *)
Definition is_blank (s : string) : bool :=
  match lstrip s with EmptyString => true | _ => false end.

(** [s.rstrip()]: the text is cut where what follows is white space
    only. *)
Fixpoint rstrip (s : string) : string :=
  match s with
  | EmptyString => EmptyString
  | String c s' => if is_blank s then EmptyString else String c (rstrip s')
  end.

(** [s.strip()]. *)
Definition strip (s : string) : string := rstrip (lstrip s).

(** [s.rfind(c)] for a single character: the index of its last
    occurrence. *)
Fixpoint rfind (c : ascii) (s : string) : option nat :=
  match s with
  | EmptyString => None
  | String a s' =>
      match rfind c s' with
      | Some i => Some (S i)
      | None => if Ascii.eqb a c then Some 0 else None
      end
  end.

(** Truthiness of a [str]: the empty string is falsy. *)
Definition truthy (s : string) : bool :=
  match s with EmptyString => false | _ => true end.

(** [s.split(sep)] for a non-empty [sep]: the pieces between the
    non-overlapping occurrences of [sep], leftmost first.  [split_from]
    returns the piece being read and the pieces after it; [skip] counts
    the characters of an occurrence still to be dropped. *)
Fixpoint split_from (skip : nat) (sep s : string) : string * list string :=
  match s with
  | EmptyString => (EmptyString, [])
  | String c s' =>
      match skip with
      | S k => split_from k sep s'
      | O =>
          if String.prefix sep s
          then (EmptyString,
                let '(p, ps) := split_from (String.length sep - 1) sep s' in
                p :: ps)
          else let '(p, ps) := split_from 0 sep s' in (String c p, ps)
      end
  end.

Definition split (s sep : string) : list string :=
  let '(p, ps) := split_from 0 sep s in p :: ps.

(** [sep.join(xs)]. *)
Fixpoint join (sep : string) (xs : list string) : string :=
  match xs with
  | [] => EmptyString
  | [x] => x
  | x :: (_ :: _) as rest => x ++ sep ++ join sep rest
  end.

(** [xs[-1]] on the result of a [split], which is never empty. *)
Definition last_piece (xs : list string) : string := List.last xs EmptyString.

(** [f"{n}"] for a [len(...)]. *)
Definition str_of_nat (n : nat) : string :=
  DecimalString.NilZero.string_of_uint (Nat.to_uint n).

End PyStr.

(* ================================================================== *)
(** * Python [dict]: an association list in insertion order *)
(* ================================================================== *)

Module PyDict.

Definition dict : Type := list (string * string).

(** [d[k] = v]: an existing key keeps its position and takes the new
    value, a new key goes last. *)
Fixpoint set (d : dict) (k v : string) : dict :=
  match d with
  | [] => [(k, v)]
  | (k', v') :: d' =>
      if String.eqb k' k then (k', v) :: d' else (k', v') :: set d' k v
  end.

(** [d.get(k)]. *)
Fixpoint get (d : dict) (k : string) : option string :=
  match d with
  | [] => None
  | (k', v') :: d' => if String.eqb k' k then Some v' else get d' k
  end.

(** [k in d]. *)
Definition mem (d : dict) (k : string) : bool :=
  match get d k with Some _ => true | None => false end.

Definition keys (d : dict) : list string := map fst d.
Definition values (d : dict) : list string := map snd d.


(** Truthiness of a [dict]: the empty one is falsy. *)
Definition truthy (d : dict) : bool :=
  match d with [] => false | _ => true end.

End PyDict.

(* ================================================================== *)
(** * BranchCatalog: the branch cell *)
(* ================================================================== *)

Module BranchCatalog.
Import PyStr PyDict.

Definition _platform_map : dict :=
  [ ("tahoe", "macOS 26 Tahoe");
    ("sequoia", "macOS 15 Sequoia");
    ("sonoma", "macOS 14 Sonoma");
    ("ventura", "macOS 13 Ventura");
    ("monterey", "macOS 12 Monterey");
    ("big_sur", "macOS 11 Big Sur");
    ("catalina", "macOS 10.15 Catalina");
    ("ios_26", "iOS/iPadOS 26");
    ("ios_18", "iOS/iPadOS 18");
    ("ios_17", "iOS/iPadOS 17");
    ("ios_16", "iOS/iPadOS 16");
    ("visionos_26", "visionOS 26");
    ("visionos_2", "visionOS 2");
    ("main", "⚠️ main (development - not recommended)") ].

(** The prefixes of [_b.startswith((...))] and the substrings of
    [any(x in _b for x in [...])]. *)
Definition excluded_prefixes : list string := ["dev"; "nist-"; "505-"].
Definition excluded_substrings : list string := ["_fix"; "_typo"; "create-"].

(** One iteration of [for _b in _raw_branches]. *)
Definition branch_step (_branch_display : dict) (_b : string) : dict :=
  if mem _platform_map _b then
    match get _platform_map _b with
    | Some label => set _branch_display label _b
    | None => _branch_display
    end
  else if negb (startswith_any _b excluded_prefixes) then
    if negb (existsb (fun x => contains x _b) excluded_substrings)
    then set _branch_display _b _b
    else _branch_display
  else _branch_display.

Definition fallback_branches : dict :=
  [ ("macOS 26 Tahoe", "tahoe");
    ("macOS 15 Sequoia", "sequoia");
    ("iOS 26", "ios_26") ].

(** The display mapping handed to the dropdown: the filtered branches,
    or the fallback when the filtering leaves nothing. *)
Definition _branch_display (_raw_branches : list string) : dict :=
  let d := fold_left branch_step _raw_branches [] in
  if negb (truthy d) then fallback_branches else d.

(** The default selection; [None] stands for the [IndexError] of
    [list(...)[0]] on an empty mapping. *)
Definition _default (d : dict) : option string :=
  if mem d "macOS 26 Tahoe" then Some "macOS 26 Tahoe"
  else if mem d "macOS 15 Sequoia" then Some "macOS 15 Sequoia"
  else hd_error (keys d).

(** A branch name falls under the exclusion patterns. *)
Definition matches_exclusion (_b : string) : bool :=
  startswith_any _b excluded_prefixes
  || existsb (fun x => contains x _b) excluded_substrings.

(** The loop, from the dictionary [d] over the branches [raw]. *)
Definition steps (raw : list string) (d : dict) : dict :=
  fold_left branch_step raw d.

(** Neither side of an entry falls under the exclusion patterns. *)
Definition clean_entry (e : string * string) : bool :=
  negb (matches_exclusion (fst e)) && negb (matches_exclusion (snd e)).

Definition clean (d : dict) : Prop :=
  forall e, In e d -> clean_entry e = true.

End BranchCatalog.

(* ================================================================== *)
(** * BaselineCatalog: the baseline cell *)
(* ================================================================== *)

Module BaselineCatalog.
Import PyStr PyDict.

(** [PurePath.stem] on a file name: the name up to its last dot, when
    that dot is neither the first nor the last character. *)
Definition stem (name : string) : string :=
  match rfind "."%char name with
  | Some i =>
      if (0 <? i)%nat && (i <? String.length name - 1)%nat
      then substring 0 i name
      else name
  | None => name
  end.

(** [_path.glob("*.yaml")] over the names of the directory entries. *)
Definition glob_yaml (names : list string) : list string :=
  filter (fun n => endswith n ".yaml") names.

(** [sorted(...)]: a stable sort by the code points of the names. *)
Fixpoint insert_sorted (x : string) (l : list string) : list string :=
  match l with
  | [] => [x]
  | y :: l' => if String.leb x y then x :: l else y :: insert_sorted x l'
  end.

Fixpoint sorted (l : list string) : list string :=
  match l with
  | [] => []
  | x :: l' => insert_sorted x (sorted l')
  end.

(** The label derivation, from the stem [_name] of a baseline file. *)
Definition display_name (_name : string) : string :=
  let _display := replace (replace _name "_" " ") "-" " " in
  if contains "byod" (lower _name) then
    "CIS " ++ title (replace (replace _display "cis " EmptyString) "byod" "BYOD")
  else if contains "enterprise" (lower _name) then
    "CIS " ++ title (replace (replace _display "cis " EmptyString)
                             "enterprise" "Enterprise")
  else if contains "indigo" (lower _name) then
    "Indigo " ++ title (replace _display "indigo " EmptyString)
  else if contains "cis" (lower _name) then
    "CIS " ++ title (replace _display "cis " EmptyString)
  else if contains "800-53" _name then
    "NIST " ++ upper _name
  else if contains "800-171" _name then
    "NIST SP 800-171"
  else if contains "cmmc" (lower _name) then
    "CMMC " ++ title (replace _display "cmmc " EmptyString)
  else if contains "cnssi" (lower _name) then
    replace (upper _name) "_" " "
  else if contains "all_rules" (lower _name) then
    "All Rules (complete)"
  else
    title _display.

(** The label of a baseline file, from its file name. *)
Definition label_of_file (filename : string) : string :=
  display_name (stem filename).

(** One iteration of [for _f in sorted(_path.glob("*.yaml"))]. *)
Definition baseline_step (_baselines : dict) (_f : string) : dict :=
  let _name := stem _f in
  set _baselines (display_name _name) _name.

(** The loop, from the dictionary [d] over the files [l]. *)
Definition loop (l : list string) (d : dict) : dict :=
  fold_left baseline_step l d.

(** The loop over the directory: [names] are the entries of
    [<repo>/baselines]. *)
Definition scan (names : list string) : dict :=
  loop (sorted (glob_yaml names)) [].

(** The order [sorted] sorts by. *)
Definition le (a b : string) : Prop := String.leb a b = true.

Definition fallback_baselines : dict :=
  [ ("CIS Level 1", "cis_lvl1");
    ("CIS Level 2", "cis_lvl2");
    ("NIST 800-53r5 Low", "800-53r5_low");
    ("NIST 800-53r5 Moderate", "800-53r5_moderate");
    ("NIST 800-53r5 High", "800-53r5_high") ].

(** The mapping handed to the dropdown; [dir_exists] is
    [_path.exists()] for the baselines directory. *)
Definition _baselines (dir_exists : bool) (names : list string) : dict :=
  let d := if dir_exists then scan names else [] in
  if negb (truthy d) then fallback_baselines else d.

(** The file an entry of the mapping stands for: the generation cell
    builds [baselines/<value>.yaml] from the selected value. *)
Definition file_of_value (v : string) : string := v ++ ".yaml".


End BaselineCatalog.

(* ================================================================== *)
(** * The world of a cell: filesystem and subprocesses *)
(* ================================================================== *)

(** The arguments of a [subprocess.run(..., capture_output=True, text=True)]
    call that the cells vary; [env_extra] holds the variables added to
    [os.environ]. *)
Record call : Type := Call {
  argv : list string;
  cwd : option string;
  timeout : option Z;
  env_extra : list (string * string)
}.

(** [subprocess.CompletedProcess]. *)
Record CompletedProcess : Type := Completed {
  returncode : Z;
  stdout : string;
  stderr : string
}.

(** The exceptions the cells tell apart, each with its [str(e)]. *)
Inductive exn : Type :=
| TimeoutExpired (msg : string)
| FileNotFoundError (msg : string)
| OtherException (msg : string).

Definition str_of_exn (e : exn) : string :=
  match e with
  | TimeoutExpired m | FileNotFoundError m | OtherException m => m
  end.

(** What the world answers to the cells: [Path.exists] reads it,
    [subprocess.run] may change it and either completes or raises. *)
Class World (W : Type) : Type := {
  path_exists : W -> string -> bool;
  subprocess_run : W -> call -> W * (CompletedProcess + exn)
}.

(** What a cell did to the world, in order. *)
Inductive event : Type :=
| EvExists (p : string)
| EvRun (c : call).

(** [p / a / b ...] on paths kept as strings. *)
Definition joinpath (p : string) (parts : list string) : string :=
  fold_left (fun acc a => acc ++ "/" ++ a) parts p.

(** The [git] and [uv] command lines of the notebook. *)
Module Cmd.

Definition remote_url : string := "https://github.com/usnistgov/macos_security.git".

Definition rev_parse (_path : string) : call :=
  Call ["git"; "rev-parse"; "--abbrev-ref"; "HEAD"] (Some _path) None [].

Definition clone (_path branch : string) : call :=
  Call ["git"; "clone"; "--depth"; "1"; "-b"; branch; remote_url; _path]
       None (Some 120%Z) [].

Definition set_branches (_path branch : string) : call :=
  Call ["git"; "remote"; "set-branches"; "--add"; "origin"; branch]
       (Some _path) (Some 30%Z) [].

Definition fetch (_path branch : string) : call :=
  Call ["git"; "fetch"; "--depth"; "1"; "origin"; branch]
       (Some _path) (Some 60%Z) [].

Definition checkout (_path branch : string) : call :=
  Call ["git"; "checkout"; branch] (Some _path) (Some 30%Z) [].

Definition pull (_path : string) : call :=
  Call ["git"; "pull"; "--ff-only"] (Some _path) (Some 60%Z) [].

Definition generate (_path : string) (_flags : list string)
           (_baseline_file : string) : call :=
  Call (["uv"; "run"; "--with-requirements"; "requirements.txt";
         "python"; "scripts/generate_guidance.py"]
          ++ _flags ++ [_baseline_file])%list
       (Some _path) (Some 300%Z) [("PYTHONUNBUFFERED", "1")].

End Cmd.

(* ================================================================== *)
(** * The cell monad *)
(* ================================================================== *)

(** The state of a running cell: the world, the events so far and the
    local variable [_output]. *)
Record cell_state (W : Type) : Type := CellState {
  world : W;
  trace : list event;
  output : string
}.

Arguments CellState {W} _ _ _.
Arguments world {W} _.
Arguments trace {W} _.
Arguments output {W} _.

(** A computation either returns or raises; the state reached is kept in
    both cases. *)
Definition M (W A : Type) : Type := cell_state W -> cell_state W * (A + exn).

Section CellMonad.
Context {W : Type} `{World W}.

Definition ret {A} (a : A) : M W A := fun s => (s, inl a).

Definition bind {A B} (m : M W A) (k : A -> M W B) : M W B :=
  fun s =>
    match m s with
    | (s', inl a) => k a s'
    | (s', inr e) => (s', inr e)
    end.

(** [try: m  except ... as e: h e]. *)
Definition try_except {A} (m : M W A) (h : exn -> M W A) : M W A :=
  fun s =>
    match m s with
    | (s', inl a) => (s', inl a)
    | (s', inr e) => h e s'
    end.

(** [_output = v] and [_output += v]. *)
Definition set_output (v : string) : M W unit :=
  fun s => (CellState (world s) (trace s) v, inl tt).

Definition add_output (v : string) : M W unit :=
  fun s => (CellState (world s) (trace s) (output s ++ v), inl tt).

(** [p.exists()], where it answers.  [Path.exists] answers [False] for a
    missing path and re-raises the other [OSError]s of [stat] (a
    [PermissionError]); the cells call it outside their [try] blocks,
    and such a raise is not part of this embedding: the world answers
    every test. *)
Definition exists_ (p : string) : M W bool :=
  fun s =>
    (CellState (world s) (trace s ++ [EvExists p])%list (output s),
     inl (path_exists (world s) p)).

(** [subprocess.run(...)]. *)
Definition run (c : call) : M W CompletedProcess :=
  fun s =>
    let '(w', r) := subprocess_run (world s) c in
    (CellState w' (trace s ++ [EvRun c])%list (output s), r).

(** A cell starts with no event and [_output = ""]. *)
Definition start (w : W) : cell_state W := CellState w [] EmptyString.

End CellMonad.

Declare Scope cell_scope.
Delimit Scope cell_scope with cell.
Notation "x <- m ;; k" := (bind m (fun x => k))
  (at level 61, m at next level, right associativity) : cell_scope.
Notation "m ;; k" := (bind m (fun _ => k))
  (at level 61, right associativity) : cell_scope.

Local Open Scope cell_scope.

(* ================================================================== *)
(** * SyncController: the sync cell *)
(* ================================================================== *)

(** The three branches of the [if _needs_clone / elif _needs_switch / else]
    dispatch. *)
Inductive action : Type := Clone | Switch | Pull.

Section SyncCell.
Context {W : Type} `{World W}.
Import PyStr.

(** The [try: git rev-parse ... except: pass] block: [_current_branch]
    stays [None] on a non-zero exit and on any exception. *)
Definition probe_current_branch (_path : string) : M W (option string) :=
  try_except
    (_result <- run (Cmd.rev_parse _path) ;;
     ret (if (returncode _result =? 0)%Z
          then Some (strip (stdout _result))
          else None))
    (fun _ => ret None).

(** [_needs_switch = _current_branch and _current_branch != branch.value],
    as the [elif] reads it. *)
Definition needs_switch (_current_branch : option string) (branch : string) : bool :=
  match _current_branch with
  | Some b => truthy b && negb (String.eqb b branch)
  | None => false
  end.

Definition select_action (_needs_clone _needs_switch : bool) : action :=
  if _needs_clone then Clone
  else if _needs_switch then Switch
  else Pull.

(** [f"{_current_branch}"]. *)
Definition str_of_branch (_current_branch : option string) : string :=
  match _current_branch with Some b => b | None => "None" end.

(** [_result.stdout + _result.stderr]. *)
Definition captured (_result : CompletedProcess) : string :=
  stdout _result ++ stderr _result.

(** The texts of the Clone branch. *)
Definition clone_header (branch : string) : string :=
  "Cloning mSCP (" ++ branch ++ ")..." ++ nl ++ nl.

Definition clone_verdict (branch : string) (_result : CompletedProcess) : string :=
  if (returncode _result =? 0)%Z
  then nl ++ nl ++ "Ready: mSCP (" ++ branch ++ ")"
  else nl ++ nl ++ "Clone failed.".

Definition clone_error (e : exn) : string :=
  match e with
  | TimeoutExpired _ => "Error: Clone timed out (2 min limit)"
  | _ => "Error: " ++ str_of_exn e
  end.

Definition clone_action (_path branch : string) : M W unit :=
  set_output (clone_header branch) ;;
  try_except
    (_result <- run (Cmd.clone _path branch) ;;
     add_output (captured _result) ;;
     add_output (clone_verdict branch _result))
    (fun e => add_output (clone_error e)).

(** The texts of the Switch branch. *)
Definition switch_header (_current_branch : option string) (branch : string) : string :=
  "Switching from " ++ str_of_branch _current_branch
     ++ " to " ++ branch ++ "..." ++ nl ++ nl.

Definition switch_verdict (branch : string) (_result : CompletedProcess) : string :=
  if (returncode _result =? 0)%Z
  then nl ++ nl ++ "Switched to: mSCP (" ++ branch ++ ")"
  else nl ++ nl ++ "Switch failed.".

Definition switch_error (e : exn) : string :=
  match e with
  | TimeoutExpired _ => "Error: Branch switch timed out"
  | _ => "Error: " ++ str_of_exn e
  end.

(** The result of the branch registration is overwritten by the one of
    the fetch before anything reads it. *)
Definition switch_action (_current_branch : option string)
           (_path branch : string) : M W unit :=
  set_output (switch_header _current_branch branch) ;;
  try_except
    (_result <- run (Cmd.set_branches _path branch) ;;
     _result <- run (Cmd.fetch _path branch) ;;
     add_output (captured _result) ;;
     _result <- run (Cmd.checkout _path branch) ;;
     add_output (captured _result) ;;
     add_output (switch_verdict branch _result))
    (fun e => add_output (switch_error e)).

(** The texts of the Pull branch. *)
Definition pull_header (branch : string) : string :=
  "Already on " ++ branch ++ ". Updating..." ++ nl ++ nl.

Definition pull_verdict : string := nl ++ nl ++ "Repository up to date.".

Definition pull_error (e : exn) : string := "Error updating: " ++ str_of_exn e.

Definition pull_action (_path branch : string) : M W unit :=
  set_output (pull_header branch) ;;
  try_except
    (_result <- run (Cmd.pull _path) ;;
     add_output (captured _result) ;;
     add_output pull_verdict)
    (fun e => add_output (pull_error e)).

Definition perform (a : action) (_current_branch : option string)
           (_path branch : string) : M W unit :=
  match a with
  | Clone => clone_action _path branch
  | Switch => switch_action _current_branch _path branch
  | Pull => pull_action _path branch
  end.

(** The cell: [sync_button] is [sync_button.value], [_path] the expanded
    repository path, [branch] is [branch.value].  It returns
    [sync_complete]. *)
Definition sync_cell (sync_button : bool) (_path branch : string) : M W bool :=
  set_output EmptyString ;;
  (if sync_button then
     path_found <- exists_ _path ;;
     let _needs_clone := negb path_found in
     _current_branch <-
       (if negb _needs_clone then probe_current_branch _path else ret None) ;;
     let _needs_switch := needs_switch _current_branch branch in
     perform (select_action _needs_clone _needs_switch)
             _current_branch _path branch
   else ret tt) ;;
  ret sync_button.

(** One press of the sync button in the world [w]. *)
Definition sync (w : W) (_path branch : string) : cell_state W * (bool + exn) :=
  sync_cell true _path branch (start w).

Definition sync_events (w : W) (_path branch : string) : list event :=
  trace (fst (sync w _path branch)).

Definition sync_log (w : W) (_path branch : string) : string :=
  output (fst (sync w _path branch)).



(** The branch the cell reads off the repository at [_path], when it
    can. *)
Definition current_branch (w : W) (_path : string) : option string :=
  match snd (probe_current_branch _path (start w)) with
  | inl b => b
  | inr _ => None
  end.

(** What the probe makes of the answer of [git rev-parse]. *)
Definition branch_of_outcome (o : CompletedProcess + exn) : option string :=
  match o with
  | inl r => if (returncode r =? 0)%Z then Some (strip (stdout r)) else None
  | inr _ => None
  end.

End SyncCell.

(** ** Observing which action ran *)

(** The action a subprocess call belongs to. *)
Definition action_of_call (c : call) : option action :=
  match argv c with
  | "git" :: "clone" :: _ => Some Clone
  | "git" :: "remote" :: _ => Some Switch
  | "git" :: "fetch" :: _ => Some Switch
  | "git" :: "checkout" :: _ => Some Switch
  | "git" :: "pull" :: _ => Some Pull
  | _ => None
  end.

Definition action_eq_dec (a b : action) : {a = b} + {a <> b}.
Proof. decide equality. Defined.

Fixpoint actions_of (evs : list event) : list action :=
  match evs with
  | [] => []
  | EvRun c :: evs' =>
      match action_of_call c with
      | Some a => a :: actions_of evs'
      | None => actions_of evs'
      end
  | EvExists _ :: evs' => actions_of evs'
  end.

(** The distinct actions that ran at least one subprocess. *)
Definition actions_performed (evs : list event) : list action :=
  nodup action_eq_dec (actions_of evs).

(** The subprocess calls of a trace, in order. *)
Fixpoint calls_of (evs : list event) : list call :=
  match evs with
  | [] => []
  | EvRun c :: evs' => c :: calls_of evs'
  | EvExists _ :: evs' => calls_of evs'
  end.



(* ================================================================== *)
(** * GenerationInvoker: the generation cell *)
(* ================================================================== *)

(** The four checkboxes. *)
Record checkboxes : Type := Checkboxes {
  generate_profiles : bool;
  generate_scripts : bool;
  generate_ddm : bool;
  generate_guidance : bool
}.

(** [f"{n}"] for an integer. *)
Definition str_of_Z (n : Z) : string :=
  DecimalString.NilZero.string_of_int (Z.to_int n).

Section GenerateCell.
Context {W : Type} `{World W}.
Import PyStr.

(** The [_flags] list, built by the four [if ...: _flags.append(...)]. *)
Definition build_flags (c : checkboxes) : list string :=
  ((if generate_profiles c then ["-p"] else [])
     ++ (if generate_scripts c then ["-s"] else [])
     ++ (if generate_ddm c then ["-D"] else [])
     ++ (if generate_guidance c then ["-g"] else []))%list.

Definition list_truthy {A} (l : list A) : bool :=
  match l with [] => false | _ => true end.

Definition msg_repo_not_found (_path : string) : string :=
  "Error: mSCP repository not found at " ++ _path ++ nl
    ++ "Clone it first using the button above.".

Definition msg_script_not_found : string :=
  "Error: generate_guidance.py not found. Is this a valid mSCP repository?".

Definition msg_no_flags : string :=
  "Error: Select at least one output type (profiles, scripts, etc.)".

Definition msg_baseline_not_found (_baseline_file : string) : string :=
  "Error: Baseline file not found: " ++ _baseline_file.

Definition invoke_generator (_path baseline : string) (_flags : list string)
           (_baseline_file : string) : M W unit :=
  try_except
    (_result <- run (Cmd.generate _path _flags _baseline_file) ;;
     set_output (stdout _result ++ stderr _result) ;;
     if (returncode _result =? 0)%Z
     then add_output (nl ++ nl ++ "Generation complete! Output in: "
                         ++ _path ++ "/build/" ++ baseline ++ "/")
     else add_output (nl ++ nl ++ "Generation failed with exit code "
                         ++ str_of_Z (returncode _result)))
    (fun e =>
       match e with
       | FileNotFoundError _ =>
           set_output "Error: uv not found. Install with: curl -LsSf https://astral.sh/uv/install.sh | sh"
       | TimeoutExpired _ =>
           set_output "Error: Generation timed out (5 min limit)"
       | OtherException _ =>
           set_output ("Error: " ++ str_of_exn e)
       end).

(** The cell: [generate_button] is [generate_button.value], [baseline]
    is [baseline.value]. *)
Definition generate_cell (generate_button : bool) (_path baseline : string)
           (boxes : checkboxes) : M W unit :=
  set_output EmptyString ;;
  if generate_button then
    path_found <- exists_ _path ;;
    if negb path_found then
      set_output (msg_repo_not_found _path)
    else
      script_found <- exists_ (joinpath _path ["scripts"; "generate_guidance.py"]) ;;
      if negb script_found then
        set_output msg_script_not_found
      else
        let _flags := build_flags boxes in
        if negb (list_truthy _flags) then
          set_output msg_no_flags
        else
          let _baseline_file := "baselines/" ++ baseline ++ ".yaml" in
          baseline_found <- exists_ (joinpath _path [_baseline_file]) ;;
          if negb baseline_found then
            set_output (msg_baseline_not_found _baseline_file)
          else
            invoke_generator _path baseline _flags _baseline_file
  else ret tt.

(** One press of the generate button in the world [w]. *)
Definition generate (w : W) (_path baseline : string) (boxes : checkboxes)
  : cell_state W :=
  fst (generate_cell true _path baseline boxes (start w)).

(** The preconditions of the generation, as the cell tests them. *)
Definition ready (w : W) (_path baseline : string) (boxes : checkboxes) : Prop :=
  path_exists w _path = true
  /\ path_exists w (joinpath _path ["scripts"; "generate_guidance.py"]) = true
  /\ build_flags boxes <> []
  /\ path_exists w (joinpath _path ["baselines/" ++ baseline ++ ".yaml"]) = true.

End GenerateCell.

(* ================================================================== *)
(** * The remaining cells *)
(* ================================================================== *)

(** What a cell hands to [mo.md] or [mo.callout]. *)
Inductive element : Type :=
| Md (text : string)
| Callout (kind text : string).

(** The command lines of the cells below. *)
Module Cmd2.

Definition ls_remote : call :=
  Call ["git"; "ls-remote"; "--heads"; Cmd.remote_url] None (Some 30%Z) [].

Definition find_profiles (_path : string) : call :=
  Call ["find"; "."; "-type"; "f"; "-name"; "*.mobileconfig"] (Some _path) None [].

Definition find_files (_path : string) : call :=
  Call ["find"; "."; "-type"; "f"] (Some _path) None [].

Definition open_folder (_path : string) : call :=
  Call ["open"; _path] None None [].

End Cmd2.

Section BranchCell.
Context {W : Type} `{World W}.
Import PyStr PyDict.

(** The loop of [_get_github_branches] over the lines of the output of
    [git ls-remote]: an empty line is skipped, the branch of a line is what
    follows its last [refs/heads/]. *)
Definition parse_heads (out : string) : list string :=
  map (fun line => last_piece (split line "refs/heads/"))
      (filter PyStr.truthy (split (strip out) nl)).

(** [_get_github_branches()]: the sorted branches, or [[]] on a non-zero
    exit and on any exception. *)
Definition _get_github_branches : M W (list string) :=
  try_except
    (_result <- run Cmd2.ls_remote ;;
     if (returncode _result =? 0)%Z
     then ret (BaselineCatalog.sorted (parse_heads (stdout _result)))
     else ret [])
    (fun _ => ret []).

(** The branch cell: the options and the default value of the dropdown. *)
Definition branch_cell : M W (dict * option string) :=
  _raw_branches <- _get_github_branches ;;
  let d := BranchCatalog._branch_display _raw_branches in
  ret (d, BranchCatalog._default d).

(** The dropdown of the branch cell in the world [w]. *)
Definition branch_dropdown (w : W) : option (dict * option string) :=
  match snd (branch_cell (start w)) with
  | inl v => Some v
  | inr _ => None
  end.

End BranchCell.

Section StatusCell.
Context {W : Type} `{World W}.
Import PyStr.





End StatusCell.

Section PreviewCell.
Import PyStr.

(** The [_cmd] text of the command preview cell. *)
Definition preview_command (_path baseline : string) (boxes : checkboxes) : string :=
  let _flags_str := join " " (build_flags boxes) in
  let _baseline_file := "baselines/" ++ baseline ++ ".yaml" in
  "cd " ++ _path ++ nl
    ++ "uv run --with-requirements requirements.txt \" ++ nl
    ++ "    python scripts/generate_guidance.py " ++ _flags_str ++ " " ++ _baseline_file.

Definition preview_cell (_path baseline : string) (boxes : checkboxes) : element :=
  Callout "info"
          ("**Command to execute:**" ++ nl ++ "```bash" ++ nl
             ++ preview_command _path baseline boxes ++ nl ++ "```").

End PreviewCell.

Section OutputCells.
Context {W : Type} `{World W}.
Import PyStr.

(** [<repo>/build/<baseline>], the directory the three output cells read. *)
Definition build_dir (_repo baseline : string) : string :=
  joinpath _repo ["build"; baseline].

(** [[f for f in _result.stdout.strip().split("\n") if f]]. *)
Definition profile_lines (out : string) : list string :=
  filter PyStr.truthy (split (strip out) nl).

Definition yes_no (b : bool) : string := if b then "Yes" else "No".

Definition summary_text (_path : string) (_profile_count : nat)
           (has_scripts _ddm_exists : bool) : string :=
  "### Generated Output Summary" ++ nl ++ nl
    ++ "| Category | Count/Status |" ++ nl
    ++ "|----------|--------------|" ++ nl
    ++ "| Profiles (.mobileconfig) | " ++ str_of_nat _profile_count ++ " |" ++ nl
    ++ "| Compliance Script | " ++ yes_no has_scripts ++ " |" ++ nl
    ++ "| DDM Artifacts | " ++ yes_no _ddm_exists ++ " |" ++ nl ++ nl
    ++ "**Output location:** `" ++ _path ++ "`" ++ nl.

(** The summary cell; [names] are the entries of the build directory,
    over which [_path.glob("*_compliance.sh")] runs. *)
Definition summary_cell (_repo baseline : string) (names : list string) : M W element :=
  let _path := build_dir _repo baseline in
  found <- exists_ _path ;;
  if found then
    try_except
      (_result <- run (Cmd2.find_profiles _path) ;;
       let _profiles := profile_lines (stdout _result) in
       let _profile_count := List.length _profiles in
       let _scripts := filter (fun n => endswith n "_compliance.sh") names in
       _ddm_exists <- exists_ (joinpath _path ["ddm"]) ;;
       ret (Md (summary_text _path _profile_count
                             (list_truthy _scripts) _ddm_exists)))
      (fun e => ret (Callout "danger" ("Error listing files: " ++ str_of_exn e)))
  else
    ret (Callout "neutral"
                 ("No output found at `" ++ _path ++ "`" ++ nl ++ nl
                    ++ "Run generation first.")).

(** The listing cell; it returns [_show_open]. *)
Definition list_cell (list_button : bool) (_repo baseline : string) : M W bool :=
  set_output EmptyString ;;
  let _path := build_dir _repo baseline in
  if list_button then
    found <- exists_ _path ;;
    if negb found then
      set_output ("Output directory not found: " ++ _path) ;;
      ret false
    else
      try_except
        (_result <- run (Cmd2.find_files _path) ;;
         let _files := BaselineCatalog.sorted (split (strip (stdout _result)) nl) in
         set_output ("Files in " ++ _path ++ ":" ++ nl ++ nl ++ join nl _files) ;;
         ret true)
        (fun e => set_output ("Error: " ++ str_of_exn e) ;; ret false)
  else ret false.

(** The open-folder cell: no [try] around its [subprocess.run]. *)
Definition open_cell (open_button : bool) (_repo baseline : string) : M W unit :=
  if open_button then
    let _path := build_dir _repo baseline in
    found <- exists_ _path ;;
    if found then
      _ <- run (Cmd2.open_folder _path) ;;
      ret tt
    else ret tt
  else ret tt.

End OutputCells.

(* ================================================================== *)
(** * Shapes of the texts the subprocesses print *)
(* ================================================================== *)

Module Shape.
Import PyStr.

Fixpoint all_chars (p : ascii -> bool) (s : string) : bool :=
  match s with
  | EmptyString => true
  | String c s' => p c && all_chars p s'
  end.

(** A non-empty text that [strip] leaves as it is: no white space at its
    ends, ASCII or not. *)
Definition trimmed (s : string) : Prop :=
  s <> EmptyString /\ lstrip s = s /\ rstrip s = s.

(** No character of [s] is a newline. *)
Definition no_newline (s : string) : bool :=
  all_chars (fun c => negb (Ascii.eqb c (ascii_of_nat 10))) s.

(** A lower-case hexadecimal digit. *)
Definition is_hex (c : ascii) : bool :=
  let n := nat_of_ascii c in
  ((48 <=? n)%nat && (n <=? 57)%nat) || ((97 <=? n)%nat && (n <=? 102)%nat).

(** An object name as [git ls-remote] prints it. *)
Definition hex_sha (s : string) : bool := truthy s && all_chars is_hex s.

(** U+00A0, the no-break space, in UTF-8. *)
Definition nbsp : string := String (byte 194) (String (byte 160) EmptyString).

(** The tab between the object name and the ref. *)
Definition tab : string := String (ascii_of_nat 9) EmptyString.

(** One line of [git ls-remote --heads], without its newline. *)
Definition head_line (entry : string * string) : string :=
  fst entry ++ tab ++ "refs/heads/" ++ snd entry.

(** An entry of [git ls-remote --heads]: a hexadecimal object name and a
    branch name that has no white space at its ends, holds no newline
    and does not itself hold [refs/heads/]. *)
Definition well_formed (e : string * string) : Prop :=
  hex_sha (fst e) = true /\ trimmed (snd e) /\ no_newline (snd e) = true
  /\ contains "refs/heads/" (snd e) = false.

(** The output of a command that prints the lines [ls], each followed by
    a newline. *)
Definition printed (ls : list string) : string :=
  List.fold_right (fun l acc => l ++ nl ++ acc) EmptyString ls.

(** [l1] is [l2] with some elements left out, the order kept. *)
Inductive subsequence {A : Type} : list A -> list A -> Prop :=
| sub_nil (l : list A) : subsequence [] l
| sub_take (x : A) (l1 l2 : list A) :
    subsequence l1 l2 -> subsequence (x :: l1) (x :: l2)
| sub_skip (x : A) (l1 l2 : list A) :
    subsequence l1 l2 -> subsequence l1 (x :: l2).

(** A set of characters closed under the case conversions. *)
Definition keeps (p : ascii -> bool) : Prop :=
  forall c, p c = true -> p (to_upper c) = true /\ p (to_lower c) = true.

(** The character [c] is not [x]. *)
Definition is_not (x : ascii) (c : ascii) : bool := negb (Ascii.eqb c x).

(** A line that holds no newline and neither starts nor ends with white
    space. *)
Definition tidy (l : string) : Prop :=
  no_newline l = true /\ rstrip l = l /\
  (exists c l', l = String c l' /\ is_space c = false) /\
  lstrip l = l.

End Shape.

(* ================================================================== *)
(** * A scripted world for concrete runs *)
(* ================================================================== *)

(** A world given by the paths that exist and a table from command lines
    to what they answer; a command absent from the table completes with
    exit code 0 and no output.  Running a command leaves it unchanged. *)
Record scripted : Type := Scripted {
  existing : list string;
  answers : list (list string * (CompletedProcess + exn))
}.

Fixpoint list_string_eqb (a b : list string) : bool :=
  match a, b with
  | [], [] => true
  | x :: a', y :: b' => String.eqb x y && list_string_eqb a' b'
  | _, _ => false
  end.

Fixpoint answer_of (tbl : list (list string * (CompletedProcess + exn)))
         (args : list string) : CompletedProcess + exn :=
  match tbl with
  | [] => inl (Completed 0 EmptyString EmptyString)
  | (a, r) :: tbl' => if list_string_eqb a args then r else answer_of tbl' args
  end.

#[export] Instance scripted_world : World scripted := {
  path_exists w p := existsb (String.eqb p) (existing w);
  subprocess_run w c := (w, answer_of (answers w) (argv c))
}.

(** ** Scenarios *)

Module Scenario.
Import PyStr.

Definition repo : string := "./macos_security".

(** The path exists but is not a git repository: [git rev-parse] exits
    with 128. *)
Definition not_a_repository : scripted :=
  Scripted [repo]
    [ (argv (Cmd.rev_parse repo),
       inl (Completed 128 EmptyString
              ("fatal: not a git repository (or any of the parent directories): .git" ++ nl))) ].

(** A clone on [sonoma] whose remote is gone: branch registration and
    fetch exit non-zero, and so does the checkout. *)
Definition remote_gone : scripted :=
  Scripted [repo]
    [ (argv (Cmd.rev_parse repo),
       inl (Completed 0 ("sonoma" ++ nl) EmptyString));
      (argv (Cmd.set_branches repo "sequoia"),
       inl (Completed 2 EmptyString ("error: No such remote 'origin'" ++ nl)));
      (argv (Cmd.fetch repo "sequoia"),
       inl (Completed 128 EmptyString
              ("fatal: 'origin' does not appear to be a git repository" ++ nl)));
      (argv (Cmd.checkout repo "sequoia"),
       inl (Completed 1 EmptyString
              ("error: pathspec 'sequoia' did not match any file(s) known to git" ++ nl))) ].

(** A clone on [sequoia] whose history diverged from the remote:
    [git pull --ff-only] exits with 128. *)
Definition diverged : scripted :=
  Scripted [repo]
    [ (argv (Cmd.rev_parse repo),
       inl (Completed 0 ("sequoia" ++ nl) EmptyString));
      (argv (Cmd.pull repo),
       inl (Completed 128 EmptyString
              ("fatal: Not possible to fast-forward, aborting." ++ nl))) ].


(** A clone on [sonoma] with a working remote. *)
Definition on_sonoma : scripted :=
  Scripted [repo]
    [ (argv (Cmd.rev_parse repo),
       inl (Completed 0 ("sonoma" ++ nl) EmptyString));
      (argv (Cmd.fetch repo "sequoia"),
       inl (Completed 0 EmptyString ("From https://github.com/usnistgov/macos_security" ++ nl)));
      (argv (Cmd.checkout repo "sequoia"),
       inl (Completed 0 EmptyString ("Switched to a new branch 'sequoia'" ++ nl))) ].

(** A clone on [sonoma] whose fetch hangs. *)
Definition fetch_hangs : scripted :=
  Scripted [repo]
    [ (argv (Cmd.rev_parse repo),
       inl (Completed 0 ("sonoma" ++ nl) EmptyString));
      (argv (Cmd.fetch repo "sequoia"),
       inr (TimeoutExpired "Command timed out after 60 seconds")) ].

(** Nothing on disk. *)
Definition empty_disk : scripted := Scripted [] [].

(** A clone on a branch named [sequoia] followed by a no-break space. *)
Definition on_sequoia_nbsp : scripted :=
  Scripted [repo]
    [ (argv (Cmd.rev_parse repo),
       inl (Completed 0 ("sequoia" ++ Shape.nbsp ++ nl) EmptyString)) ].

(** A remote with five heads, two of them work branches. *)
Definition remote_heads : scripted :=
  Scripted []
    [ (argv Cmd2.ls_remote,
       inl (Completed 0
              (Shape.printed
                 (map Shape.head_line
                      [ ("1f0c3a", "tahoe"); ("9be2d1", "dev_2.0");
                        ("77aa01", "sequoia"); ("c0ffee", "ios_18");
                        ("deadbe", "sonoma_fix") ]))
              EmptyString)) ].

(** No network: [git ls-remote] exits with 128. *)
Definition no_network : scripted :=
  Scripted []
    [ (argv Cmd2.ls_remote,
       inl (Completed 128 EmptyString
              ("fatal: unable to access the remote" ++ nl))) ].

(** A valid clone on [sonoma] with a build of [cis_lvl1]. *)
Definition built : scripted :=
  Scripted [ repo; joinpath repo ["scripts"; "generate_guidance.py"];
             joinpath repo ["baselines/cis_lvl1.yaml"];
             joinpath repo ["build"; "cis_lvl1"] ]
    [ (argv (Cmd.rev_parse repo),
       inl (Completed 0 ("sonoma" ++ nl) EmptyString));
      (argv (Cmd2.find_profiles (joinpath repo ["build"; "cis_lvl1"])),
       inl (Completed 0
              (Shape.printed ["./mobileconfigs/a.mobileconfig";
                              "./mobileconfigs/b.mobileconfig"])
              EmptyString));
      (argv (Cmd2.find_files (joinpath repo ["build"; "cis_lvl1"])),
       inl (Completed 0
              (Shape.printed ["./mobileconfigs/b.mobileconfig";
                              "./cis_lvl1_compliance.sh";
                              "./mobileconfigs/a.mobileconfig"])
              EmptyString));
      (argv (Cmd2.open_folder (joinpath repo ["build"; "cis_lvl1"])),
       inr (FileNotFoundError "[Errno 2] No such file or directory: 'open'")) ].

(** A valid clone with the baseline file, where [uv] is not installed. *)
Definition no_uv : scripted :=
  Scripted [ repo; joinpath repo ["scripts"; "generate_guidance.py"];
             joinpath repo ["baselines/cis_lvl1.yaml"] ]
    [ (argv (Cmd.generate repo ["-p"; "-s"; "-D"; "-g"] "baselines/cis_lvl1.yaml"),
       inr (FileNotFoundError "[Errno 2] No such file or directory: 'uv'")) ].

(** The build directory of [cis_lvl1]. *)
Definition build : string := joinpath repo ["build"; "cis_lvl1"].

Definition all_boxes : checkboxes := Checkboxes true true true true.
Definition no_boxes : checkboxes := Checkboxes false false false false.

End Scenario.

(* ================================================================== *)
(** * Properties *)
(* ================================================================== *)

(** ** Python strings on concrete inputs *)

Example title_lvl1_BYOD : PyStr.title "lvl1 BYOD" = "Lvl1 Byod".
Proof. reflexivity. Qed.

Example replace_cis :
  PyStr.replace "cis lvl1 byod" "cis " EmptyString = "lvl1 byod".
Proof. reflexivity. Qed.

Example replace_non_overlapping : PyStr.replace "aaaa" "aa" "b" = "bb".
Proof. reflexivity. Qed.

Example strip_branch : PyStr.strip ("  sequoia" ++ PyStr.nl) = "sequoia".
Proof. reflexivity. Qed.

Example upper_name : PyStr.upper "800-53r5_low" = "800-53R5_LOW".
Proof. reflexivity. Qed.

(** ** Dictionaries *)

Module PyDictFacts.
Import PyDict.

Lemma get_In (d : dict) (k v : string) :
  get d k = Some v -> In (k, v) d.
Proof.
  induction d as [|[k' v'] d IH]; simpl; [discriminate|].
  destruct (String.eqb k' k) eqn:E.
  - apply String.eqb_eq in E. intros [= <-]. left. now subst.
  - intros Hg. right. auto.
Qed.

(** An entry of [d[k] = v] is an entry of [d] or the pair [(k, v)]. *)
Lemma In_set (d : dict) (k v : string) (e : string * string) :
  In e (set d k v) -> In e d \/ e = (k, v).
Proof.
  induction d as [|[k' v'] d IH]; simpl.
  - intros [<-|[]]. now right.
  - destruct (String.eqb k' k) eqn:E; simpl.
    + apply String.eqb_eq in E. subst k'.
      intros [<-|Hin]; [now right | left; now right].
    + intros [<-|Hin]; [left; now left|].
      destruct (IH Hin) as [Hd|He]; [left; now right | now right].
Qed.

Lemma get_set_same (d : dict) (k v : string) :
  get (set d k v) k = Some v.
Proof.
  induction d as [|[k' v'] d IH]; simpl.
  - now rewrite String.eqb_refl.
  - destruct (String.eqb k' k) eqn:E; simpl; now rewrite E.
Qed.

Lemma get_set_other (d : dict) (k k0 v : string) :
  k <> k0 -> get (set d k v) k0 = get d k0.
Proof.
  intros Hne.
  induction d as [|[k' v'] d IH]; simpl.
  - apply String.eqb_neq in Hne. now rewrite Hne.
  - destruct (String.eqb k' k) eqn:E; simpl.
    + apply String.eqb_eq in E. subst k'.
      apply String.eqb_neq in Hne. now rewrite Hne.
    + destruct (String.eqb k' k0); auto.
Qed.

Lemma keys_set (d : dict) (k v : string) (x : string) :
  In x (keys (set d k v)) <-> In x (keys d) \/ x = k.
Proof.
  unfold keys.
  induction d as [|[k' v'] d IH]; simpl.
  - intuition.
  - destruct (String.eqb k' k) eqn:E; simpl.
    + apply String.eqb_eq in E. subst k'. intuition.
    + rewrite IH. intuition.
Qed.

(** Assignments keep the keys distinct. *)
Lemma NoDup_keys_set (d : dict) (k v : string) :
  NoDup (keys d) -> NoDup (keys (set d k v)).
Proof.
  unfold keys.
  induction d as [|[k' v'] d IH]; simpl; intros Hnd.
  - constructor; [intros [] | constructor].
  - inversion Hnd as [|? ? Hnin Hnd']; subst.
    destruct (String.eqb k' k) eqn:E; simpl.
    + constructor; assumption.
    + constructor; [|auto].
      intros Hin. apply (keys_set d k v k') in Hin.
      destruct Hin as [Hin | ->]; [contradiction|].
      now rewrite String.eqb_refl in E.
Qed.



Lemma In_values (d : dict) (v : string) :
  In v (values d) <-> exists k, In (k, v) d.
Proof.
  unfold values. rewrite in_map_iff. split.
  - intros [[k v'] [Hv Hin]]. simpl in Hv. subst. now exists k.
  - intros [k Hin]. now exists (k, v).
Qed.

Lemma In_keys (d : dict) (k : string) :
  In k (keys d) <-> exists v, In (k, v) d.
Proof.
  unfold keys. rewrite in_map_iff. split.
  - intros [[k' v] [Hk Hin]]. simpl in Hk. subst. now exists v.
  - intros [v Hin]. now exists (k, v).
Qed.

End PyDictFacts.

(** ** BranchCatalog *)

Module BranchCatalogFacts.
Import PyStr PyDict PyDictFacts BranchCatalog.

Example filter_sample :
  _branch_display
    ["505-fix"; "dev_2.0"; "feature_x"; "main"; "nist-rev6"; "sequoia";
     "sonoma_fix"; "tahoe"; "tahoe_typo"; "create-baseline"]
  = [ ("feature_x", "feature_x");
      ("⚠️ main (development - not recommended)", "main");
      ("macOS 15 Sequoia", "sequoia");
      ("macOS 26 Tahoe", "tahoe") ].
Proof. reflexivity. Qed.

Example default_sample :
  _default (_branch_display ["main"; "sequoia"; "sonoma"]) = Some "macOS 15 Sequoia".
Proof. reflexivity. Qed.

Example fallback_when_fetch_fails : _branch_display [] = fallback_branches.
Proof. reflexivity. Qed.

(** No name of the lookup table, and no label of it, falls under the
    exclusion patterns: table membership and exclusion never meet. *)
Lemma platform_map_clean : clean _platform_map.
Proof.
  unfold clean. apply forallb_forall. vm_compute. reflexivity.
Qed.

Lemma fallback_clean : clean fallback_branches.
Proof.
  unfold clean. apply forallb_forall. vm_compute. reflexivity.
Qed.

Lemma table_member_not_excluded (_b : string) :
  mem _platform_map _b = true -> matches_exclusion _b = false.
Proof.
  unfold mem. destruct (get _platform_map _b) as [label|] eqn:G; [|discriminate].
  intros _. apply get_In in G. apply platform_map_clean in G.
  unfold clean_entry in G. simpl in G.
  apply andb_true_iff in G. destruct G as [G _].
  now apply negb_true_iff in G.
Qed.

Lemma clean_set (d : dict) (k v : string) :
  clean d -> clean_entry (k, v) = true -> clean (set d k v).
Proof.
  intros Hd Hkv e Hin. apply In_set in Hin.
  destruct Hin as [Hin | ->]; auto.
Qed.

Lemma branch_step_clean (d : dict) (_b : string) :
  clean d -> clean (branch_step d _b).
Proof.
  intros Hd. unfold branch_step.
  destruct (mem _platform_map _b) eqn:Hm.
  - destruct (get _platform_map _b) as [label|] eqn:G; [|assumption].
    apply clean_set; [assumption|].
    apply get_In in G. apply platform_map_clean in G.
    unfold clean_entry in *. simpl in *. now rewrite andb_comm.
  - destruct (startswith_any _b excluded_prefixes) eqn:Hp;
      cbn [negb]; [assumption|].
    destruct (existsb (fun x => contains x _b) excluded_substrings) eqn:Hs;
      cbn [negb]; [assumption|].
    apply clean_set; [assumption|].
    unfold clean_entry, matches_exclusion. simpl fst. simpl snd.
    now rewrite Hp, Hs.
Qed.

Lemma fold_branch_step_clean (raw : list string) (d : dict) :
  clean d -> clean (fold_left branch_step raw d).
Proof.
  revert d. induction raw as [|b raw IH]; simpl; intros d Hd; [assumption|].
  apply IH. now apply branch_step_clean.
Qed.

Lemma branch_display_clean (raw : list string) : clean (_branch_display raw).
Proof.
  unfold _branch_display.
  destruct (negb (truthy (fold_left branch_step raw []))).
  - apply fallback_clean.
  - apply fold_branch_step_clean. intros e [].
Qed.

(** C7.  Whatever the list of remote branches, a branch name that starts
    with [dev], [nist-] or [505-], or contains [_fix], [_typo] or
    [create-], is neither a value nor a key of the display mapping; and
    such a name is never a member of the lookup table, so membership
    cannot bring it back. *)
Theorem excluded_branch_not_displayed (_raw_branches : list string) (_b : string) :
  matches_exclusion _b = true ->
  ~ In _b (values (_branch_display _raw_branches))
  /\ ~ In _b (keys (_branch_display _raw_branches))
  /\ mem _platform_map _b = false.
Proof.
  intros Hx.
  pose proof (branch_display_clean _raw_branches) as Hc.
  repeat split.
  - intros Hin. apply In_values in Hin. destruct Hin as [k Hin].
    apply Hc in Hin. unfold clean_entry in Hin. simpl in Hin.
    rewrite Hx in Hin. now rewrite andb_false_r in Hin.
  - intros Hin. apply In_keys in Hin. destruct Hin as [v Hin].
    apply Hc in Hin. unfold clean_entry in Hin. simpl in Hin.
    now rewrite Hx in Hin.
  - destruct (mem _platform_map _b) eqn:Hm; [|reflexivity].
    apply table_member_not_excluded in Hm. congruence.
Qed.

Lemma excluded_branch_not_displayed_witness :
  matches_exclusion "sonoma_fix" = true
  /\ ~ In "sonoma_fix" (values (_branch_display ["sequoia"; "sonoma"; "sonoma_fix"]))
  /\ ~ In "sonoma_fix" (keys (_branch_display ["sequoia"; "sonoma"; "sonoma_fix"]))
  /\ mem _platform_map "sonoma_fix" = false.
Proof.
  split; [reflexivity|].
  apply (excluded_branch_not_displayed ["sequoia"; "sonoma"; "sonoma_fix"] "sonoma_fix").
  reflexivity.
Defined.

End BranchCatalogFacts.

(** ** Strings: order, suffixes and stems *)

Module PyStrFacts.
Import PyStr.

Lemma ascii_compare_trans_le (x y z : ascii) :
  Ascii.compare x y <> Gt -> Ascii.compare y z <> Gt -> Ascii.compare x z <> Gt.
Proof.
  unfold Ascii.compare. rewrite !N.compare_le_iff. lia.
Qed.

Lemma ascii_compare_refl (x : ascii) : Ascii.compare x x = Eq.
Proof. unfold Ascii.compare. apply N.compare_refl. Qed.

(** The order of [sorted] is transitive. *)
Lemma leb_trans (a b c : string) :
  String.leb a b = true -> String.leb b c = true -> String.leb a c = true.
Proof.
  unfold String.leb. revert b c.
  induction a as [|x a IH]; intros [|y b] [|z c]; simpl; try easy.
  destruct (Ascii.compare x y) eqn:Exy; try easy;
    destruct (Ascii.compare y z) eqn:Eyz; try easy.
  - apply Ascii.compare_eq_iff in Exy, Eyz. subst.
    rewrite ascii_compare_refl. apply IH.
  - apply Ascii.compare_eq_iff in Exy. subst. now rewrite Eyz.
  - apply Ascii.compare_eq_iff in Eyz. subst. now rewrite Exy.
  - intros _ _.
    assert (Hlt : Ascii.compare x z = Lt).
    { unfold Ascii.compare in *. rewrite N.compare_lt_iff in *. lia. }
    now rewrite Hlt.
Qed.

Lemma leb_refl (a : string) : String.leb a a = true.
Proof.
  destruct (String.leb_total a a); assumption.
Qed.

Lemma append_nil_r (s : string) : s ++ EmptyString = s.
Proof. induction s; simpl; congruence. Qed.

Lemma append_assoc (a b c : string) : (a ++ b) ++ c = a ++ (b ++ c).
Proof. induction a; simpl; congruence. Qed.

Lemma length_append (a b : string) :
  String.length (a ++ b) = String.length a + String.length b.
Proof. induction a; simpl; congruence. Qed.

Lemma substring_append (a b : string) :
  substring 0 (String.length a) (a ++ b) = a.
Proof.
  induction a as [|c a IH]; simpl.
  - now destruct b.
  - now rewrite IH.
Qed.

Lemma append_inj_r (a b s : string) : a ++ s = b ++ s -> a = b.
Proof.
  revert b. induction a as [|x a IH]; intros [|y b]; simpl; intros Heq.
  - reflexivity.
  - exfalso. apply (f_equal String.length) in Heq. simpl in Heq.
    rewrite length_append in Heq. lia.
  - exfalso. apply (f_equal String.length) in Heq. simpl in Heq.
    rewrite length_append in Heq. lia.
  - injection Heq as -> Heq. f_equal. auto.
Qed.

(** A name accepted by [endswith] is some text followed by the suffix. *)
Lemma endswith_split (n suf : string) :
  endswith n suf = true -> exists s, n = s ++ suf.
Proof.
  induction n as [|c n IH]; cbn [endswith].
  - rewrite orb_false_r. intros Heq. apply String.eqb_eq in Heq.
    exists EmptyString. now subst.
  - intros Hor. apply orb_true_iff in Hor. destruct Hor as [Heq|Hend].
    + apply String.eqb_eq in Heq. exists EmptyString. now rewrite <- Heq.
    + destruct (IH Hend) as [s ->]. now exists (String c s).
Qed.

Lemma rfind_dot_yaml (s : string) :
  rfind "."%char (s ++ ".yaml") = Some (String.length s).
Proof.
  induction s as [|c s IH]; simpl.
  - reflexivity.
  - now rewrite IH.
Qed.

End PyStrFacts.

(** ** BaselineCatalog *)

Module BaselineCatalogFacts.
Import PyStr PyDict PyDictFacts PyStrFacts BaselineCatalog.

(** *** Stems of the globbed names *)

Lemma stem_yaml (s : string) :
  stem (s ++ ".yaml") = match s with EmptyString => ".yaml" | _ => s end.
Proof.
  unfold stem. rewrite rfind_dot_yaml, length_append.
  destruct s as [|c s]; [reflexivity|].
  change (String.length ".yaml") with 5.
  replace (0 <? String.length (String c s))%nat with true
    by (symmetry; apply Nat.ltb_lt; simpl; lia).
  replace (String.length (String c s) <? String.length (String c s) + 5 - 1)%nat
    with true by (symmetry; apply Nat.ltb_lt; lia).
  cbn [andb]. apply substring_append.
Qed.

Lemma glob_yaml_In (names : list string) (f : string) :
  In f (glob_yaml names) <-> In f names /\ endswith f ".yaml" = true.
Proof. unfold glob_yaml. rewrite filter_In. reflexivity. Qed.


(** The entry of a globbed file [g] stands for [g] itself, except for
    the file named [.yaml], whose entry stands for [.yaml.yaml]. *)
Lemma file_of_stem (s : string) :
  file_of_value (stem (s ++ ".yaml")) =
  match s with EmptyString => ".yaml.yaml" | _ => s ++ ".yaml" end.
Proof.
  rewrite stem_yaml. now destruct s.
Qed.

(** *** [sorted] *)

Lemma In_insert_sorted (x y : string) (l : list string) :
  In y (insert_sorted x l) <-> y = x \/ In y l.
Proof.
  induction l as [|z l IH]; simpl.
  - intuition.
  - destruct (String.leb x z); simpl; [intuition|].
    rewrite IH. intuition.
Qed.

Lemma In_sorted (y : string) (l : list string) :
  In y (sorted l) <-> In y l.
Proof.
  induction l as [|x l IH]; simpl; [reflexivity|].
  rewrite In_insert_sorted, IH. intuition.
Qed.

Lemma insert_sorted_ordered (x : string) (l : list string) :
  StronglySorted le l -> StronglySorted le (insert_sorted x l).
Proof.
  induction l as [|z l IH]; simpl; intros Hs.
  - constructor; [constructor | constructor].
  - inversion Hs as [|? ? Hl Hz]; subst.
    destruct (String.leb x z) eqn:E.
    + constructor; [assumption|].
      constructor; [exact E|].
      rewrite Forall_forall in *. intros y Hy.
      unfold le. apply leb_trans with z; [exact E | now apply Hz].
    + constructor; [auto|].
      rewrite Forall_forall in *. intros y Hy.
      apply In_insert_sorted in Hy. destruct Hy as [-> | Hy]; [|auto].
      destruct (String.leb_total x z) as [Hxz|Hzx]; [congruence | exact Hzx].
Qed.

Lemma sorted_ordered (l : list string) : StronglySorted le (sorted l).
Proof.
  induction l as [|x l IH]; simpl; [constructor|].
  now apply insert_sorted_ordered.
Qed.

(** *** The loop *)

Lemma loop_NoDup (l : list string) (d : dict) :
  NoDup (keys d) -> NoDup (keys (loop l d)).
Proof.
  revert d. induction l as [|f l IH]; simpl; intros d Hd; [assumption|].
  apply IH. unfold baseline_step. now apply NoDup_keys_set.
Qed.

(** Every entry comes from the initial dictionary or from a file. *)
Lemma loop_entries (l : list string) (d : dict) (e : string * string) :
  In e (loop l d) ->
  In e d \/ exists g, In g l /\ e = (label_of_file g, stem g).
Proof.
  revert d. induction l as [|f l IH]; simpl; intros d Hin; [now left|].
  apply IH in Hin. destruct Hin as [Hin | [g [Hg ->]]].
  - unfold baseline_step in Hin. apply In_set in Hin.
    destruct Hin as [Hin | ->]; [now left|].
    right. exists f. split; [now left | reflexivity].
  - right. exists g. split; [now right | reflexivity].
Qed.

(** Files with other labels leave the entry of a label alone. *)
Lemma loop_other_labels (l : list string) (d : dict) (L : string) :
  (forall g, In g l -> label_of_file g <> L) ->
  get (loop l d) L = get d L.
Proof.
  revert d. induction l as [|f l IH]; simpl; intros d Hl; [reflexivity|].
  rewrite IH by (intros g Hg; apply Hl; now right).
  unfold baseline_step. apply get_set_other. apply Hl. now left.
Qed.

(** Over a sorted list, the entry of a label is the stem of the last
    file that has it. *)
Lemma loop_last_wins (l : list string) (d : dict) (f : string) :
  StronglySorted le l ->
  In f l ->
  (forall g, In g l -> label_of_file g = label_of_file f -> le g f) ->
  get (loop l d) (label_of_file f) = Some (stem f).
Proof.
  revert d. induction l as [|x l IH]; simpl; intros d Hs Hin Hlast; [easy|].
  inversion Hs as [|? ? Hl Hx]; subst.
  destruct (in_dec string_dec f l) as [Hfl | Hnfl].
  - apply IH; auto.
  - destruct Hin as [-> | Hin]; [|contradiction].
    rewrite loop_other_labels.
    + unfold baseline_step. apply get_set_same.
    + intros g Hg Hlab.
      assert (g = f); [|congruence].
      apply String.leb_antisym.
      * apply Hlast; [now right | assumption].
      * rewrite Forall_forall in Hx. now apply Hx.
Qed.

(** Every file of the list leaves its label in the dictionary. *)
Lemma loop_has_label (l : list string) (d : dict) (g : string) :
  In g l -> exists v, get (loop l d) (label_of_file g) = Some v.
Proof.
  revert d g. induction l as [|x l IH]; simpl; intros d g Hin; [easy|].
  destruct (in_dec string_dec (label_of_file g) (map label_of_file l))
    as [Hl | Hnl].
  - apply in_map_iff in Hl. destruct Hl as [g' [Hlab Hg']].
    rewrite <- Hlab. now apply IH.
  - destruct Hin as [-> | Hin].
    + change (fold_left baseline_step l (baseline_step d g))
        with (loop l (baseline_step d g)).
      rewrite loop_other_labels.
      * exists (stem g). unfold baseline_step. apply get_set_same.
      * intros g' Hg' Hlab. apply Hnl. rewrite <- Hlab. now apply in_map.
    + exfalso. apply Hnl. now apply in_map.
Qed.

(** A directory with a baseline file never falls back to the fixed
    table. *)
Lemma scan_nonempty (names : list string) (f : string) :
  In f (glob_yaml names) -> _baselines true names = scan names.
Proof.
  intros Hin. unfold _baselines.
  destruct (scan names) as [|e d] eqn:Hs; [|reflexivity].
  exfalso.
  destruct (loop_has_label (sorted (glob_yaml names)) [] f) as [v Hv].
  - now apply In_sorted.
  - unfold scan in Hs. now rewrite Hs in Hv.
Qed.

(** *** The label table on sample names *)

Example label_cis_lvl1 : label_of_file "cis_lvl1.yaml" = "CIS Lvl1".
Proof. reflexivity. Qed.

Example label_800_171 : label_of_file "800-171.yaml" = "NIST SP 800-171".
Proof. reflexivity. Qed.

Example label_cnssi : label_of_file "cnssi-1253_high.yaml" = "CNSSI-1253 HIGH".
Proof. reflexivity. Qed.

Example label_all_rules : label_of_file "all_rules.yaml" = "All Rules (complete)".
Proof. reflexivity. Qed.

Example label_cis_wins_over_800_171 :
  label_of_file "cis_800-171.yaml" = "CIS 800 171".
Proof. reflexivity. Qed.

(** The 800-171 rule, as reached: the name carries [800-171] and none of
    the markers tested before it. *)
Lemma label_800_171_rule (_name : string) :
  contains "byod" (lower _name) = false ->
  contains "enterprise" (lower _name) = false ->
  contains "indigo" (lower _name) = false ->
  contains "cis" (lower _name) = false ->
  contains "800-53" _name = false ->
  contains "800-171" _name = true ->
  display_name _name = "NIST SP 800-171".
Proof.
  intros H1 H2 H3 H4 H5 H6. unfold display_name.
  now rewrite H1, H2, H3, H4, H5, H6.
Qed.

(** C6.  The label derivation on the two sample files: the 800-53 rule
    upper-cases the whole stem and keeps the underscore, and [title]
    undoes the [BYOD] replacement, so neither label is the one of the
    specification (the first of which is the one the fallback table of
    the same cell gives to this stem). *)
Theorem sample_labels_computed :
  label_of_file "800-53r5_low.yaml" = "NIST 800-53R5_LOW"
  /\ label_of_file "cis_lvl1_byod.yaml" = "CIS Lvl1 Byod"
  /\ label_of_file "800-53r5_low.yaml" <> "NIST 800-53r5 Low"
  /\ label_of_file "cis_lvl1_byod.yaml" <> "CIS Lvl1 BYOD"
  /\ In ("NIST 800-53r5 Low", stem "800-53r5_low.yaml") fallback_baselines.
Proof.
  repeat split; try reflexivity; try discriminate.
  simpl. auto.
Qed.

(** *** Files that share a label *)




End BaselineCatalogFacts.

(** ** SyncController *)

Section SyncFacts.
Context {W : Type} `{World W}.
Import PyStr PyStrFacts.

Ltac cell_unfold :=
  unfold bind, ret, try_except, set_output, add_output, exists_, run, start;
  cbn [world trace output fst snd].

(** *** The three actions, step by step *)

(** The probe never raises and runs [git rev-parse] once. *)
Lemma probe_run (s : cell_state W) (_path : string) :
  probe_current_branch _path s =
  let '(w1, o) := subprocess_run (world s) (Cmd.rev_parse _path) in
  (CellState w1 (trace s ++ [EvRun (Cmd.rev_parse _path)])%list (output s),
   inl (match o with
        | inl r => if (returncode r =? 0)%Z then Some (strip (stdout r)) else None
        | inr _ => None
        end)).
Proof.
  unfold probe_current_branch. cell_unfold.
  destruct (subprocess_run (world s) (Cmd.rev_parse _path)) as [w1 [r|e]];
    reflexivity.
Qed.

Lemma clone_action_run (s : cell_state W) (_path branch : string) :
  clone_action _path branch s =
  let '(w1, o) := subprocess_run (world s) (Cmd.clone _path branch) in
  (CellState w1 (trace s ++ [EvRun (Cmd.clone _path branch)])%list
     (match o with
      | inl r => clone_header branch ++ captured r ++ clone_verdict branch r
      | inr e => clone_header branch ++ clone_error e
      end),
   inl tt).
Proof.
  unfold clone_action. cell_unfold.
  destruct (subprocess_run (world s) (Cmd.clone _path branch)) as [w1 [r|e]];
    cbn [world trace output]; rewrite ?append_assoc; reflexivity.
Qed.

Lemma switch_action_run (s : cell_state W) (cur : option string)
      (_path branch : string) :
  switch_action cur _path branch s =
  let sb := Cmd.set_branches _path branch in
  let fe := Cmd.fetch _path branch in
  let co := Cmd.checkout _path branch in
  let hdr := switch_header cur branch in
  let '(w1, o1) := subprocess_run (world s) sb in
  match o1 with
  | inr e =>
      (CellState w1 (trace s ++ [EvRun sb])%list (hdr ++ switch_error e), inl tt)
  | inl _ =>
      let '(w2, o2) := subprocess_run w1 fe in
      match o2 with
      | inr e =>
          (CellState w2 (trace s ++ [EvRun sb; EvRun fe])%list
             (hdr ++ switch_error e), inl tt)
      | inl r2 =>
          let '(w3, o3) := subprocess_run w2 co in
          (CellState w3 (trace s ++ [EvRun sb; EvRun fe; EvRun co])%list
             (match o3 with
              | inl r3 => hdr ++ captured r2 ++ captured r3 ++ switch_verdict branch r3
              | inr e => hdr ++ captured r2 ++ switch_error e
              end),
           inl tt)
      end
  end.
Proof.
  unfold switch_action. cell_unfold.
  destruct (subprocess_run (world s) (Cmd.set_branches _path branch))
    as [w1 [r1|e1]]; cbn [world trace output]; [|reflexivity].
  destruct (subprocess_run w1 (Cmd.fetch _path branch))
    as [w2 [r2|e2]]; cbn [world trace output];
    [|rewrite <- !app_assoc; reflexivity].
  destruct (subprocess_run w2 (Cmd.checkout _path branch))
    as [w3 [r3|e3]]; cbn [world trace output];
    rewrite <- !app_assoc, ?append_assoc; reflexivity.
Qed.

Lemma pull_action_run (s : cell_state W) (_path branch : string) :
  pull_action _path branch s =
  let '(w1, o) := subprocess_run (world s) (Cmd.pull _path) in
  (CellState w1 (trace s ++ [EvRun (Cmd.pull _path)])%list
     (match o with
      | inl r => pull_header branch ++ captured r ++ pull_verdict
      | inr e => pull_header branch ++ pull_error e
      end),
   inl tt).
Proof.
  unfold pull_action. cell_unfold.
  destruct (subprocess_run (world s) (Cmd.pull _path)) as [w1 [r|e]];
    cbn [world trace output]; rewrite ?append_assoc; reflexivity.
Qed.

Lemma current_branch_outcome (w : W) (_path : string) :
  current_branch w _path =
  branch_of_outcome (snd (subprocess_run w (Cmd.rev_parse _path))).
Proof.
  unfold current_branch. rewrite probe_run. cbn [start world].
  destruct (subprocess_run w (Cmd.rev_parse _path)) as [w1 [r|e]]; reflexivity.
Qed.

Lemma perform_returns (a : action) (cur : option string)
      (_path branch : string) (s : cell_state W) :
  snd (perform a cur _path branch s) = inl tt.
Proof.
  destruct a; cbn [perform];
    [rewrite clone_action_run | rewrite switch_action_run
     | rewrite pull_action_run];
    cbn zeta;
    repeat match goal with
      | |- context [subprocess_run ?a ?b] =>
          destruct (subprocess_run a b) as [? [?|?]]
      end; reflexivity.
Qed.

(** The cell is the existence test, then the probe when the path
    exists, then the selected action; it returns the button value. *)
Lemma sync_run (w : W) (_path branch : string) :
  sync w _path branch =
  if path_exists w _path then
    let '(w1, o) := subprocess_run w (Cmd.rev_parse _path) in
    let cur := branch_of_outcome o in
    (fst (perform (select_action false (needs_switch cur branch))
                  cur _path branch
                  (CellState w1 [EvExists _path; EvRun (Cmd.rev_parse _path)]
                             EmptyString)),
     inl true)
  else
    (fst (clone_action _path branch (CellState w [EvExists _path] EmptyString)),
     inl true).
Proof.
  unfold sync, sync_cell. cell_unfold.
  destruct (path_exists w _path); cbn [negb app].
  - rewrite probe_run. cbn [world trace output app].
    destruct (subprocess_run w (Cmd.rev_parse _path)) as [w1 o].
    fold (branch_of_outcome o).
    match goal with
    | |- context [perform ?a ?c ?p ?b ?s] =>
        pose proof (perform_returns a c p b s) as E;
        destruct (perform a c p b s) as [s2 r]
    end.
    cbn [snd] in E. subst r. reflexivity.
  - cbn [select_action perform ret].
    pose proof (perform_returns Clone None _path branch
                  (CellState w [EvExists _path] EmptyString)) as E.
    cbn [perform] in E.
    destruct (clone_action _path branch
                (CellState w [EvExists _path] EmptyString)) as [s2 r].
    cbn [snd] in E. subst r. reflexivity.
Qed.

Ltac case_runs :=
  repeat match goal with
    | |- context [subprocess_run ?a ?b] =>
        destruct (subprocess_run a b) as [? [?|?]]
    end.

(** The events of each selected action name that action only. *)
Lemma perform_actions (a : action) (cur : option string)
      (_path branch : string) (w1 : W) :
  actions_performed
    (trace (fst (perform a cur _path branch
                   (CellState w1 [EvExists _path; EvRun (Cmd.rev_parse _path)]
                              EmptyString)))) = [a].
Proof.
  destruct a; cbn [perform];
    [rewrite clone_action_run | rewrite switch_action_run
     | rewrite pull_action_run];
    cbn zeta; cbn [world trace output]; case_runs; reflexivity.
Qed.

(** *** Which action runs *)


(** C9.  When the path exists and [git rev-parse] raises or exits
    non-zero, the press runs the probe and then [git pull --ff-only],
    and nothing of the Switch action, whatever the desired branch. *)
Theorem undetermined_branch_pulls (w : W) (_path branch : string) :
  path_exists w _path = true ->
  match snd (subprocess_run w (Cmd.rev_parse _path)) with
  | inl r => returncode r <> 0%Z
  | inr _ => True
  end ->
  sync_events w _path branch =
    [EvExists _path; EvRun (Cmd.rev_parse _path); EvRun (Cmd.pull _path)]
  /\ actions_performed (sync_events w _path branch) = [Pull]
  /\ ~ In (EvRun (Cmd.set_branches _path branch)) (sync_events w _path branch)
  /\ ~ In (EvRun (Cmd.fetch _path branch)) (sync_events w _path branch)
  /\ ~ In (EvRun (Cmd.checkout _path branch)) (sync_events w _path branch).
Proof.
  intros Hex Hrev.
  assert (Hcur : branch_of_outcome (snd (subprocess_run w (Cmd.rev_parse _path)))
                 = None).
  { destruct (snd (subprocess_run w (Cmd.rev_parse _path))) as [r|e];
      [|reflexivity].
    cbn [branch_of_outcome].
    destruct (Z.eqb_spec (returncode r) 0); [contradiction | reflexivity]. }
  assert (Hev : sync_events w _path branch =
                [EvExists _path; EvRun (Cmd.rev_parse _path);
                 EvRun (Cmd.pull _path)]).
  { unfold sync_events. rewrite sync_run, Hex.
    destruct (subprocess_run w (Cmd.rev_parse _path)) as [w1 o].
    cbn [snd] in Hcur. cbn zeta. rewrite Hcur.
    cbn [needs_switch select_action perform fst].
    rewrite pull_action_run. cbn [world trace].
    destruct (subprocess_run w1 (Cmd.pull _path)) as [w2 o2]. reflexivity. }
  rewrite Hev. split; [reflexivity|]. split; [reflexivity|].
  repeat split; intros Hin; cbn [In] in Hin;
    repeat destruct Hin as [Hin|Hin]; try discriminate Hin; try contradiction.
Qed.

(** *** The completion value *)


(** *** Steps that raise, steps that exit non-zero *)

(** C3, as the actions behave.  A step that raises (a timeout, or any
    other exception) ends its action on the spot: no later step runs,
    the log keeps what was recorded before and gets the error text of
    the action.  A non-zero exit of the clone or of the checkout, the
    last steps of their actions, closes the log with the failure text.
    A non-zero exit of the branch registration or of the fetch does not
    end the Switch action: the checkout runs all the same. *)
Theorem raised_step_stops_action
        (s : cell_state W) (cur : option string) (_path branch : string) :
  let cl := Cmd.clone _path branch in
  let sb := Cmd.set_branches _path branch in
  let fe := Cmd.fetch _path branch in
  let co := Cmd.checkout _path branch in
  let pu := Cmd.pull _path in
  (forall w1 e,
      subprocess_run (world s) cl = (w1, inr e) ->
      fst (clone_action _path branch s)
      = CellState w1 (trace s ++ [EvRun cl])%list
                  (clone_header branch ++ clone_error e))
  /\ (forall w1 r,
        subprocess_run (world s) cl = (w1, inl r) ->
        returncode r <> 0%Z ->
        fst (clone_action _path branch s)
        = CellState w1 (trace s ++ [EvRun cl])%list
                    (clone_header branch ++ captured r ++ nl ++ nl ++ "Clone failed."))
  /\ (forall w1 e,
        subprocess_run (world s) sb = (w1, inr e) ->
        fst (switch_action cur _path branch s)
        = CellState w1 (trace s ++ [EvRun sb])%list
                    (switch_header cur branch ++ switch_error e))
  /\ (forall w1 r1 w2 e,
        subprocess_run (world s) sb = (w1, inl r1) ->
        subprocess_run w1 fe = (w2, inr e) ->
        fst (switch_action cur _path branch s)
        = CellState w2 (trace s ++ [EvRun sb; EvRun fe])%list
                    (switch_header cur branch ++ switch_error e))
  /\ (forall w1 r1 w2 r2 w3 e,
        subprocess_run (world s) sb = (w1, inl r1) ->
        subprocess_run w1 fe = (w2, inl r2) ->
        subprocess_run w2 co = (w3, inr e) ->
        fst (switch_action cur _path branch s)
        = CellState w3 (trace s ++ [EvRun sb; EvRun fe; EvRun co])%list
                    (switch_header cur branch ++ captured r2 ++ switch_error e))
  /\ (forall w1 r1 w2 r2 w3 r3,
        subprocess_run (world s) sb = (w1, inl r1) ->
        subprocess_run w1 fe = (w2, inl r2) ->
        subprocess_run w2 co = (w3, inl r3) ->
        returncode r3 <> 0%Z ->
        fst (switch_action cur _path branch s)
        = CellState w3 (trace s ++ [EvRun sb; EvRun fe; EvRun co])%list
                    (switch_header cur branch ++ captured r2 ++ captured r3
                       ++ nl ++ nl ++ "Switch failed."))
  /\ (forall w1 r1 w2 r2 w3 o3,
        subprocess_run (world s) sb = (w1, inl r1) ->
        subprocess_run w1 fe = (w2, inl r2) ->
        subprocess_run w2 co = (w3, o3) ->
        trace (fst (switch_action cur _path branch s))
        = (trace s ++ [EvRun sb; EvRun fe; EvRun co])%list)
  /\ (forall w1 e,
        subprocess_run (world s) pu = (w1, inr e) ->
        fst (pull_action _path branch s)
        = CellState w1 (trace s ++ [EvRun pu])%list
                    (pull_header branch ++ pull_error e)).
Proof.
  cbn zeta.
  repeat match goal with |- _ /\ _ => split end; intros.
  - rewrite clone_action_run.
    match goal with E : subprocess_run _ _ = _ |- _ => rewrite E end.
    reflexivity.
  - rewrite clone_action_run.
    match goal with E : subprocess_run _ _ = _ |- _ => rewrite E end.
    unfold clone_verdict.
    destruct (Z.eqb_spec (returncode r) 0); [contradiction | reflexivity].
  - rewrite switch_action_run. cbn zeta.
    match goal with E : subprocess_run _ _ = _ |- _ => rewrite E end.
    reflexivity.
  - rewrite switch_action_run. cbn zeta.
    repeat match goal with E : subprocess_run _ _ = _ |- _ => rewrite E; clear E end.
    reflexivity.
  - rewrite switch_action_run. cbn zeta.
    repeat match goal with E : subprocess_run _ _ = _ |- _ => rewrite E; clear E end.
    reflexivity.
  - rewrite switch_action_run. cbn zeta.
    repeat match goal with E : subprocess_run _ _ = _ |- _ => rewrite E; clear E end.
    unfold switch_verdict.
    destruct (Z.eqb_spec (returncode r3) 0); [contradiction | reflexivity].
  - rewrite switch_action_run. cbn zeta.
    repeat match goal with E : subprocess_run _ _ = _ |- _ => rewrite E; clear E end.
    reflexivity.
  - rewrite pull_action_run.
    match goal with E : subprocess_run _ _ = _ |- _ => rewrite E end.
    reflexivity.
Qed.

(** *** What the log holds *)

(** C4, as the actions record it.  The log of an action is its heading,
    then the captured stdout and stderr of the subprocesses whose result
    the action reads, in the order they ran, then the closing text:
    the clone; the fetch and then the checkout; the pull.  This holds
    for every exit code.  The output of the branch registration is not
    part of the log, and a step that raises leaves only the error
    text after what was recorded before it. *)
Theorem log_holds_captured_output
        (s : cell_state W) (cur : option string) (_path branch : string) :
  (forall w1 r,
      subprocess_run (world s) (Cmd.clone _path branch) = (w1, inl r) ->
      output (fst (clone_action _path branch s))
      = clone_header branch ++ captured r ++ clone_verdict branch r)
  /\ (forall w1 r1 w2 r2 w3 r3,
        subprocess_run (world s) (Cmd.set_branches _path branch) = (w1, inl r1) ->
        subprocess_run w1 (Cmd.fetch _path branch) = (w2, inl r2) ->
        subprocess_run w2 (Cmd.checkout _path branch) = (w3, inl r3) ->
        output (fst (switch_action cur _path branch s))
        = switch_header cur branch ++ captured r2 ++ captured r3
            ++ switch_verdict branch r3)
  /\ (forall w1 r1 w2 r2 w3 e,
        subprocess_run (world s) (Cmd.set_branches _path branch) = (w1, inl r1) ->
        subprocess_run w1 (Cmd.fetch _path branch) = (w2, inl r2) ->
        subprocess_run w2 (Cmd.checkout _path branch) = (w3, inr e) ->
        output (fst (switch_action cur _path branch s))
        = switch_header cur branch ++ captured r2 ++ switch_error e)
  /\ (forall w1 r,
        subprocess_run (world s) (Cmd.pull _path) = (w1, inl r) ->
        output (fst (pull_action _path branch s))
        = pull_header branch ++ captured r ++ pull_verdict).
Proof.
  repeat match goal with |- _ /\ _ => split end; intros;
    [rewrite clone_action_run | rewrite switch_action_run
     | rewrite switch_action_run | rewrite pull_action_run];
    cbn zeta;
    repeat match goal with E : subprocess_run _ _ = _ |- _ => rewrite E; clear E end;
    reflexivity.
Qed.

(** The Pull action closes its log the same way for every exit code of
    [git pull --ff-only]. *)
Lemma pull_log_ignores_returncode
      (s : cell_state W) (_path branch : string) (w1 : W)
      (rc : Z) (out err : string) :
  subprocess_run (world s) (Cmd.pull _path) = (w1, inl (Completed rc out err)) ->
  output (fst (pull_action _path branch s))
  = pull_header branch ++ (out ++ err) ++ nl ++ nl ++ "Repository up to date.".
Proof.
  intros E. rewrite pull_action_run, E. reflexivity.
Qed.

End SyncFacts.

(** *** The sync cell on the scenarios *)

Module SyncScenarios.
Import PyStr Scenario.

Example clone_scenario :
  calls_of (sync_events empty_disk repo "sequoia") = [Cmd.clone repo "sequoia"]
  /\ In "-b" (argv (Cmd.clone repo "sequoia"))
  /\ sync_log empty_disk repo "sequoia"
     = clone_header "sequoia" ++ nl ++ nl ++ "Ready: mSCP (sequoia)".
Proof. repeat split. simpl. auto 10. Qed.

Example switch_scenario :
  calls_of (sync_events on_sonoma repo "sequoia")
  = [ Cmd.rev_parse repo; Cmd.set_branches repo "sequoia";
      Cmd.fetch repo "sequoia"; Cmd.checkout repo "sequoia" ].
Proof. reflexivity. Qed.



Lemma undetermined_branch_pulls_witness :
  path_exists not_a_repository repo = true
  /\ returncode (Completed 128 EmptyString EmptyString) <> 0%Z
  /\ sync_events not_a_repository repo "sequoia"
     = [EvExists repo; EvRun (Cmd.rev_parse repo); EvRun (Cmd.pull repo)]
  /\ actions_performed (sync_events not_a_repository repo "sequoia") = [Pull].
Proof.
  split; [reflexivity|]. split; [discriminate|].
  pose proof (undetermined_branch_pulls not_a_repository repo "sequoia"
                eq_refl ltac:(simpl; discriminate)) as [Hev [Hact _]].
  split; assumption.
Defined.


(** The fetch exits with 128 and the checkout runs all the same. *)
Lemma failed_fetch_still_checks_out :
  snd (subprocess_run remote_gone (Cmd.fetch repo "sequoia"))
    = inl (Completed 128 EmptyString
             ("fatal: 'origin' does not appear to be a git repository" ++ nl))
  /\ calls_of (sync_events remote_gone repo "sequoia")
     = [ Cmd.rev_parse repo; Cmd.set_branches repo "sequoia";
         Cmd.fetch repo "sequoia"; Cmd.checkout repo "sequoia" ]
  /\ In (EvRun (Cmd.checkout repo "sequoia")) (sync_events remote_gone repo "sequoia").
Proof. repeat split. simpl. auto 10. Qed.

Lemma raised_step_stops_action_witness :
  subprocess_run fetch_hangs (Cmd.fetch repo "sequoia")
    = (fetch_hangs, inr (TimeoutExpired "Command timed out after 60 seconds"))
  /\ fst (switch_action (Some "sonoma") repo "sequoia" (start fetch_hangs))
     = CellState fetch_hangs
         [EvRun (Cmd.set_branches repo "sequoia"); EvRun (Cmd.fetch repo "sequoia")]
         (switch_header (Some "sonoma") "sequoia" ++ "Error: Branch switch timed out").
Proof.
  split; [reflexivity|].
  apply (proj1 (proj2 (proj2 (proj2
           (raised_step_stops_action (start fetch_hangs) (Some "sonoma")
                                     repo "sequoia"))))
           fetch_hangs (Completed 0 EmptyString EmptyString) fetch_hangs
           (TimeoutExpired "Command timed out after 60 seconds"));
    reflexivity.
Defined.

(** The branch registration ran and wrote to stderr; the log does not
    hold that text. *)
Lemma registration_output_not_logged :
  In (EvRun (Cmd.set_branches repo "sequoia")) (sync_events remote_gone repo "sequoia")
  /\ snd (subprocess_run remote_gone (Cmd.set_branches repo "sequoia"))
     = inl (Completed 2 EmptyString ("error: No such remote 'origin'" ++ nl))
  /\ contains "error: No such remote 'origin'"
              (sync_log remote_gone repo "sequoia") = false
  /\ contains "fatal: 'origin' does not appear to be a git repository"
              (sync_log remote_gone repo "sequoia") = true.
Proof. repeat split. simpl. auto 10. Qed.

Lemma log_holds_captured_output_witness :
  output (fst (switch_action (Some "sonoma") repo "sequoia" (start on_sonoma)))
  = switch_header (Some "sonoma") "sequoia"
      ++ ("From https://github.com/usnistgov/macos_security" ++ nl)
      ++ ("Switched to a new branch 'sequoia'" ++ nl)
      ++ nl ++ nl ++ "Switched to: mSCP (sequoia)".
Proof.
  apply (proj1 (proj2 (log_holds_captured_output
                         (start on_sonoma) (Some "sonoma") repo "sequoia"))
           on_sonoma (Completed 0 EmptyString EmptyString)
           on_sonoma
           (Completed 0 EmptyString
              ("From https://github.com/usnistgov/macos_security" ++ nl))
           on_sonoma
           (Completed 0 EmptyString
              ("Switched to a new branch 'sequoia'" ++ nl)));
    reflexivity.
Defined.

(** C5.  On a clone whose branch is the desired one and whose history
    diverged, the press runs [git pull --ff-only] once and nothing else
    after the probe, the pull exits with 128, and the log still closes
    with "Repository up to date."; the Clone and Switch actions close
    theirs with a failure text on a non-zero exit. *)
Theorem non_fast_forward_logged_as_up_to_date :
  calls_of (sync_events diverged repo "sequoia") = [Cmd.rev_parse repo; Cmd.pull repo]
  /\ snd (subprocess_run diverged (Cmd.pull repo))
     = inl (Completed 128 EmptyString
              ("fatal: Not possible to fast-forward, aborting." ++ nl))
  /\ sync_log diverged repo "sequoia"
     = "Already on sequoia. Updating..." ++ nl ++ nl
         ++ "fatal: Not possible to fast-forward, aborting." ++ nl
         ++ nl ++ nl ++ "Repository up to date."
  /\ clone_verdict "sequoia" (Completed 128 EmptyString EmptyString)
     = nl ++ nl ++ "Clone failed."
  /\ switch_verdict "sequoia" (Completed 128 EmptyString EmptyString)
     = nl ++ nl ++ "Switch failed.".
Proof. repeat split. Qed.

End SyncScenarios.

(** ** GenerationInvoker *)

Section GenerateFacts.
Context {W : Type} `{World W}.
Import PyStr.

(** No flag is built exactly when no box is ticked. *)
Lemma build_flags_empty (boxes : checkboxes) :
  build_flags boxes = [] <->
  generate_profiles boxes = false /\ generate_scripts boxes = false
  /\ generate_ddm boxes = false /\ generate_guidance boxes = false.
Proof.
  destruct boxes as [[] [] [] []]; cbn; split; intros Hx;
    try discriminate; try tauto;
    try (destruct Hx as (? & ? & ? & ?); discriminate).
Qed.

(** The flags keep the fixed order [-p -s -D -g]. *)
Example build_flags_order :
  build_flags (Checkboxes true true true true) = ["-p"; "-s"; "-D"; "-g"]
  /\ build_flags (Checkboxes false true false true) = ["-s"; "-g"].
Proof. split; reflexivity. Qed.


End GenerateFacts.

Module GenerateScenarios.
Import PyStr Scenario.


Example no_flags_scenario :
  generate (Scripted [repo; joinpath repo ["scripts"; "generate_guidance.py"]] [])
           repo "cis_lvl1" no_boxes
  = CellState (Scripted [repo; joinpath repo ["scripts"; "generate_guidance.py"]] [])
      [EvExists repo; EvExists (joinpath repo ["scripts"; "generate_guidance.py"])]
      msg_no_flags.
Proof. reflexivity. Qed.

Example generator_exit_code_scenario :
  output (generate
            (Scripted [repo; joinpath repo ["scripts"; "generate_guidance.py"];
                       joinpath repo ["baselines/cis_lvl1.yaml"]]
               [(argv (Cmd.generate repo ["-p"; "-s"; "-D"; "-g"] "baselines/cis_lvl1.yaml"),
                 inl (Completed (-9) "out" "err"))])
            repo "cis_lvl1" all_boxes)
  = "outerr" ++ nl ++ nl ++ "Generation failed with exit code -9".
Proof. reflexivity. Qed.

End GenerateScenarios.

(** ** Texts: splitting, joining and stripping *)

Module TextFacts.
Import PyStr PyStrFacts Shape.

Lemma all_chars_app (p : ascii -> bool) (a b : string) :
  all_chars p (a ++ b) = all_chars p a && all_chars p b.
Proof.
  induction a as [|c a IH]; simpl; [reflexivity|].
  now rewrite IH, andb_assoc.
Qed.

Lemma all_chars_impl (p q : ascii -> bool) (s : string) :
  (forall c, p c = true -> q c = true) ->
  all_chars p s = true -> all_chars q s = true.
Proof.
  intros Hpq. induction s as [|c s IH]; simpl; [reflexivity|].
  intros Hs. apply andb_true_iff in Hs. destruct Hs as [Hc Hs].
  apply andb_true_iff. split; auto.
Qed.

Lemma prefix_app (sep b : string) : String.prefix sep (sep ++ b) = true.
Proof.
  induction sep as [|c sep IH]; simpl; [now destruct b|].
  destruct (ascii_dec c c) as [_|Hne]; [exact IH | now elim Hne].
Qed.

Lemma prefix_head_neq (c0 c : ascii) (sep s : string) :
  Ascii.eqb c c0 = false -> String.prefix (String c0 sep) (String c s) = false.
Proof.
  intros Hne. simpl. destruct (ascii_dec c0 c) as [->|_]; [|reflexivity].
  now rewrite Ascii.eqb_refl in Hne.
Qed.

(** *** [split] *)

(** Without an occurrence of the separator there is one piece. *)
Lemma split_from_absent (sep s : string) :
  contains sep s = false -> split_from 0 sep s = (s, []).
Proof.
  induction s as [|c s IH]; cbn [contains split_from]; [reflexivity|].
  intros Hc. apply orb_false_iff in Hc. destruct Hc as [Hp Hc].
  rewrite Hp, (IH Hc). reflexivity.
Qed.

Lemma split_absent (sep s : string) :
  contains sep s = false -> split s sep = [s].
Proof.
  intros Hc. unfold split. now rewrite split_from_absent.
Qed.

(** Dropping the rest of an occurrence. *)
Lemma split_from_skip (sep t b : string) :
  split_from (String.length t) sep (t ++ b) = split_from 0 sep b.
Proof.
  induction t as [|c t IH]; simpl; [reflexivity | exact IH].
Qed.

(** A first piece that does not hold the first character of the
    separator ends at the first occurrence. *)
Lemma split_from_first (c0 : ascii) (sep a b : string) :
  all_chars (fun c => negb (Ascii.eqb c c0)) a = true ->
  split_from 0 (String c0 sep) (a ++ String c0 sep ++ b)
  = (a, split b (String c0 sep)).
Proof.
  intros Ha. induction a as [|c a IH].
  - change (EmptyString ++ String c0 sep ++ b) with (String c0 (sep ++ b)).
    cbn [split_from].
    change (String c0 (sep ++ b)) with (String c0 sep ++ b) at 1.
    rewrite prefix_app.
    replace (String.length (String c0 sep) - 1) with (String.length sep)
      by (cbn [String.length]; lia).
    rewrite split_from_skip. reflexivity.
  - cbn [all_chars] in Ha. apply andb_true_iff in Ha. destruct Ha as [Hc Ha].
    apply negb_true_iff in Hc.
    change ((String c a) ++ String c0 sep ++ b)
      with (String c (a ++ String c0 sep ++ b)).
    cbn [split_from]. rewrite (prefix_head_neq c0 c sep _ Hc), (IH Ha).
    reflexivity.
Qed.

Lemma split_first (c0 : ascii) (sep a b : string) :
  all_chars (fun c => negb (Ascii.eqb c c0)) a = true ->
  split (a ++ String c0 sep ++ b) (String c0 sep) = a :: split b (String c0 sep).
Proof.
  intros Ha. unfold split at 1. now rewrite split_from_first.
Qed.

Lemma no_newline_absent (s : string) :
  no_newline s = true -> contains nl s = false.
Proof.
  unfold no_newline. induction s as [|c s IH]; cbn [all_chars contains].
  - reflexivity.
  - intros Hs. apply andb_true_iff in Hs. destruct Hs as [Hc Hs].
    apply negb_true_iff in Hc. rewrite (IH Hs), orb_false_r.
    unfold nl. apply prefix_head_neq. exact Hc.
Qed.

Lemma join_cons (sep x y : string) (ls : list string) :
  join sep (x :: y :: ls) = x ++ sep ++ join sep (y :: ls).
Proof. reflexivity. Qed.

Lemma split_first_line (a b : string) :
  no_newline a = true -> split (a ++ nl ++ b) nl = a :: split b nl.
Proof. intros Ha. unfold nl. now apply split_first. Qed.

(** Splitting at the newlines undoes the joining of lines that hold
    none. *)
Lemma split_join_lines (ls : list string) :
  ls <> [] ->
  Forall (fun l => no_newline l = true) ls ->
  split (join nl ls) nl = ls.
Proof.
  intros Hne Hall. induction Hall as [|x ls Hx Hall IH]; [now elim Hne|].
  destruct ls as [|y ls].
  - cbn [join]. apply split_absent. now apply no_newline_absent.
  - rewrite join_cons, split_first_line by exact Hx.
    rewrite IH by discriminate. reflexivity.
Qed.

(** *** [strip] *)

Lemma ascii_not_byte (g : ascii) (n : nat) :
  is_ascii g = true -> 128 <= n < 256 -> Ascii.eqb g (byte n) = false.
Proof.
  unfold is_ascii, byte. intros Hg Hn. apply Nat.ltb_lt in Hg.
  apply Ascii.eqb_neq. intros ->. rewrite nat_ascii_embedding in Hg; lia.
Qed.

Ltac kill_tests :=
  repeat match goal with
    | |- context [Ascii.eqb ?x ?y] => destruct (Ascii.eqb x y)
    | |- context [Nat.leb ?x ?y] => destruct (Nat.leb x y)
    end; reflexivity.

Lemma two_byte_ascii_l (g d : ascii) :
  is_ascii g = true -> two_byte_space g d = false.
Proof.
  intros Hg. unfold two_byte_space.
  rewrite (ascii_not_byte g 194 Hg) by lia. reflexivity.
Qed.

Lemma two_byte_ascii_r (c g : ascii) :
  is_ascii g = true -> two_byte_space c g = false.
Proof.
  intros Hg. unfold two_byte_space.
  rewrite (ascii_not_byte g 133 Hg), (ascii_not_byte g 160 Hg) by lia.
  kill_tests.
Qed.

Lemma three_byte_ascii_1 (g d e : ascii) :
  is_ascii g = true -> three_byte_space g d e = false.
Proof.
  intros Hg. unfold three_byte_space.
  rewrite (ascii_not_byte g 225 Hg), (ascii_not_byte g 226 Hg),
    (ascii_not_byte g 227 Hg) by lia. reflexivity.
Qed.

Lemma three_byte_ascii_2 (c g e : ascii) :
  is_ascii g = true -> three_byte_space c g e = false.
Proof.
  intros Hg. unfold three_byte_space.
  rewrite (ascii_not_byte g 154 Hg), (ascii_not_byte g 128 Hg),
    (ascii_not_byte g 129 Hg) by lia.
  kill_tests.
Qed.

Lemma three_byte_ascii_3 (c d g : ascii) :
  is_ascii g = true -> three_byte_space c d g = false.
Proof.
  intros Hg. unfold three_byte_space.
  rewrite (ascii_not_byte g 128 Hg), (ascii_not_byte g 159 Hg),
    (ascii_not_byte g 168 Hg), (ascii_not_byte g 169 Hg),
    (ascii_not_byte g 175 Hg) by lia.
  replace (128 <=? nat_of_ascii g)%nat with false.
  - kill_tests.
  - symmetry. apply Nat.leb_gt. unfold is_ascii in Hg. now apply Nat.ltb_lt in Hg.
Qed.

(** One step of [lstrip]. *)
Lemma lstrip_step (c : ascii) (s1 : string) :
  lstrip (String c s1) =
  if is_space c then lstrip s1
  else match s1 with
       | EmptyString => String c s1
       | String d s2 =>
           if two_byte_space c d then lstrip s2
           else match s2 with
                | EmptyString => String c s1
                | String e s3 =>
                    if three_byte_space c d e then lstrip s3 else String c s1
                end
       end.
Proof. reflexivity. Qed.

Lemma lstrip_length_lt (n : nat) :
  forall s, String.length s <= n -> String.length (lstrip s) <= String.length s.
Proof.
  induction n as [|n IH]; intros s Hn.
  - destruct s; [reflexivity | simpl in Hn; lia].
  - destruct s as [|c s1]; [reflexivity|]. rewrite lstrip_step.
    cbn [String.length] in *.
    destruct (is_space c). { specialize (IH s1). lia. }
    destruct s1 as [|d s2]; [reflexivity|]. cbn [String.length] in *.
    destruct (two_byte_space c d). { specialize (IH s2). lia. }
    destruct s2 as [|e s3]; [reflexivity|]. cbn [String.length] in *.
    destruct (three_byte_space c d e); [|reflexivity].
    specialize (IH s3). lia.
Qed.

Lemma lstrip_length (s : string) : String.length (lstrip s) <= String.length s.
Proof. now apply (lstrip_length_lt (String.length s)). Qed.

(** What an unchanged text starts with. *)
Lemma lstrip_fixed (c : ascii) (s1 : string) :
  lstrip (String c s1) = String c s1 ->
  is_space c = false
  /\ (forall d s2, s1 = String d s2 ->
        two_byte_space c d = false
        /\ (forall e s3, s2 = String e s3 -> three_byte_space c d e = false)).
Proof.
  intros Hfix.
  assert (Hlen : forall t, String.length t < String.length (String c s1) ->
                 lstrip t <> String c s1).
  { intros t Ht Heq. pose proof (lstrip_length t) as Hl. rewrite Heq in Hl. lia. }
  rewrite lstrip_step in Hfix. split.
  - destruct (is_space c); [|reflexivity].
    exfalso. apply (Hlen s1); [simpl; lia | exact Hfix].
  - destruct (is_space c).
    { exfalso. apply (Hlen s1); [simpl; lia | exact Hfix]. }
    intros d s2 ->. split.
    + destruct (two_byte_space c d); [|reflexivity].
      exfalso. apply (Hlen s2); [simpl; lia | exact Hfix].
    + destruct (two_byte_space c d).
      { exfalso. apply (Hlen s2); [simpl; lia | exact Hfix]. }
      intros e s3 ->. destruct (three_byte_space c d e); [|reflexivity].
      exfalso. apply (Hlen s3); [simpl; lia | exact Hfix].
Qed.

(** An unchanged text stays unchanged before an ASCII character. *)
Lemma lstrip_app_ascii (l r : string) (g : ascii) :
  is_ascii g = true -> l <> EmptyString -> lstrip l = l ->
  lstrip (l ++ String g r) = l ++ String g r.
Proof.
  intros Hg Hne Hfix. destruct l as [|c s1]; [now elim Hne|].
  destruct (lstrip_fixed c s1 Hfix) as [Hc Hrest].
  destruct s1 as [|d s2].
  - change (String c EmptyString ++ String g r) with (String c (String g r)).
    rewrite lstrip_step, Hc, (two_byte_ascii_r c g Hg).
    destruct r as [|e r]; [reflexivity|].
    now rewrite (three_byte_ascii_2 c g e Hg).
  - destruct (Hrest d s2 eq_refl) as [Hd Hrest2].
    destruct s2 as [|e s3].
    + change (String c (String d EmptyString) ++ String g r)
        with (String c (String d (String g r))).
      now rewrite lstrip_step, Hc, Hd, (three_byte_ascii_3 c d g Hg).
    + change (String c (String d (String e s3)) ++ String g r)
        with (String c (String d (String e (s3 ++ String g r)))).
      now rewrite lstrip_step, Hc, Hd, (Hrest2 e s3 eq_refl).
Qed.

(** A text that starts with an ASCII character other than white space is
    unchanged. *)
Lemma lstrip_ascii_head (c : ascii) (s : string) :
  is_ascii c = true -> is_space c = false -> lstrip (String c s) = String c s.
Proof.
  intros Ha Hc. rewrite lstrip_step, Hc.
  destruct s as [|d s2]; [reflexivity|].
  rewrite (two_byte_ascii_l c d Ha).
  destruct s2 as [|e s3]; [reflexivity|].
  now rewrite (three_byte_ascii_1 c d e Ha).
Qed.

Lemma space_is_ascii (g : ascii) : is_space g = true -> is_ascii g = true.
Proof.
  unfold is_space, is_ascii. intros Hg. apply Nat.ltb_lt.
  apply orb_true_iff in Hg. destruct Hg as [Hg|Hg];
    apply andb_true_iff in Hg; destruct Hg as [_ Hg];
    apply Nat.leb_le in Hg; lia.
Qed.

Lemma rstrip_step (c : ascii) (s : string) :
  rstrip (String c s) =
  if is_blank (String c s) then EmptyString else String c (rstrip s).
Proof. reflexivity. Qed.

(** A trailing ASCII white space does not change whether a text is
    blank. *)
Lemma is_blank_app_space (g : ascii) (n : nat) :
  is_space g = true ->
  forall s, String.length s <= n ->
            is_blank (s ++ String g EmptyString) = is_blank s.
Proof.
  intros Hg. pose proof (space_is_ascii g Hg) as Ha.
  unfold is_blank. induction n as [|n IH]; intros s Hn.
  - destruct s; [|simpl in Hn; lia]. cbn [append]. rewrite lstrip_step, Hg.
    reflexivity.
  - destruct s as [|c s1].
    { cbn [append]. rewrite lstrip_step, Hg. reflexivity. }
    cbn [String.length] in Hn.
    destruct s1 as [|d s2].
    { change (String c EmptyString ++ String g EmptyString)
        with (String c (String g EmptyString)).
      rewrite !lstrip_step. destruct (is_space c) eqn:Hc.
      - rewrite Hg. reflexivity.
      - now rewrite (two_byte_ascii_r c g Ha). }
    cbn [String.length] in Hn.
    destruct s2 as [|e s3].
    { change (String c (String d EmptyString) ++ String g EmptyString)
        with (String c (String d EmptyString ++ String g EmptyString)).
      rewrite (lstrip_step c (String d EmptyString)), (lstrip_step c).
      destruct (is_space c).
      - apply (IH (String d EmptyString)). simpl. lia.
      - cbn [append]. destruct (two_byte_space c d).
        + rewrite lstrip_step, Hg. reflexivity.
        + now rewrite (three_byte_ascii_3 c d g Ha). }
    cbn [String.length] in Hn.
    change (String c (String d (String e s3)) ++ String g EmptyString)
      with (String c (String d (String e (s3 ++ String g EmptyString)))).
    rewrite (lstrip_step c (String d (String e s3))), (lstrip_step c).
    destruct (is_space c).
    + apply (IH (String d (String e s3))). simpl. lia.
    + destruct (two_byte_space c d).
      * apply (IH (String e s3)). simpl. lia.
      * destruct (three_byte_space c d e); [|reflexivity].
        apply (IH s3). lia.
Qed.

Lemma rstrip_app_space (g : ascii) (x : string) :
  is_space g = true -> rstrip (x ++ String g EmptyString) = rstrip x.
Proof.
  intros Hg. induction x as [|c x IH].
  - cbn [append]. rewrite rstrip_step. unfold is_blank.
    rewrite lstrip_step, Hg. reflexivity.
  - change (String c x ++ String g EmptyString)
      with (String c (x ++ String g EmptyString)).
    rewrite !rstrip_step, IH.
    change (String c (x ++ String g EmptyString))
      with (String c x ++ String g EmptyString).
    now rewrite (is_blank_app_space g (String.length (String c x)) Hg).
Qed.

(** Before a text that is not blank, a text that ends in an ASCII
    character is not blank either. *)
Lemma not_blank_app (g : ascii) (b : string) (n : nat) :
  is_ascii g = true -> is_blank b = false ->
  forall q, String.length q <= n ->
            is_blank ((q ++ String g EmptyString) ++ b) = false.
Proof.
  intros Ha Hb. unfold is_blank in *.
  assert (Hbase : match lstrip (String g b) with
                  | EmptyString => true | _ => false end = false).
  { rewrite lstrip_step. destruct (is_space g); [exact Hb|].
    destruct b as [|d s2]; [reflexivity|].
    rewrite (two_byte_ascii_l g d Ha).
    destruct s2 as [|e s3]; [reflexivity|].
    now rewrite (three_byte_ascii_1 g d e Ha). }
  induction n as [|n IH]; intros q Hn.
  - destruct q; [exact Hbase | simpl in Hn; lia].
  - destruct q as [|c q1]; [exact Hbase|]. cbn [String.length] in Hn.
    destruct q1 as [|d q2].
    { change ((String c EmptyString ++ String g EmptyString) ++ b)
        with (String c (String g b)).
      rewrite lstrip_step. destruct (is_space c); [exact Hbase|].
      rewrite (two_byte_ascii_r c g Ha).
      destruct b as [|e s3]; [reflexivity|].
      now rewrite (three_byte_ascii_2 c g e Ha). }
    cbn [String.length] in Hn.
    destruct q2 as [|e q3].
    { change ((String c (String d EmptyString) ++ String g EmptyString) ++ b)
        with (String c (String d (String g b))).
      rewrite lstrip_step. destruct (is_space c).
      - apply (IH (String d EmptyString)). simpl. lia.
      - destruct (two_byte_space c d); [exact Hbase|].
        now rewrite (three_byte_ascii_3 c d g Ha). }
    cbn [String.length] in Hn.
    change ((String c (String d (String e q3)) ++ String g EmptyString) ++ b)
      with (String c (String d (String e ((q3 ++ String g EmptyString) ++ b)))).
    rewrite lstrip_step. destruct (is_space c).
    + apply (IH (String d (String e q3))). simpl. lia.
    + destruct (two_byte_space c d).
      * apply (IH (String e q3)). simpl. lia.
      * destruct (three_byte_space c d e); [|reflexivity].
        apply (IH q3). lia.
Qed.

Lemma fixed_not_blank (b : string) :
  b <> EmptyString -> rstrip b = b -> is_blank b = false.
Proof.
  destruct b as [|c b]; [easy|]. intros _. rewrite rstrip_step.
  destruct (is_blank (String c b)); [discriminate | reflexivity].
Qed.

(** After a text that ends in an ASCII character, an unchanged non-empty
    text leaves the whole unchanged. *)
Lemma rstrip_app_fixed (a b : string) (g : ascii) :
  is_ascii g = true -> b <> EmptyString -> rstrip b = b ->
  rstrip ((a ++ String g EmptyString) ++ b) = (a ++ String g EmptyString) ++ b.
Proof.
  intros Ha Hne Hb. pose proof (fixed_not_blank b Hne Hb) as Hnb.
  induction a as [|c a IH].
  - change ((EmptyString ++ String g EmptyString) ++ b) with (String g b).
    rewrite rstrip_step, Hb.
    change (String g b) with ((EmptyString ++ String g EmptyString) ++ b) at 1.
    now rewrite (not_blank_app g b 0 Ha Hnb EmptyString).
  - change ((String c a ++ String g EmptyString) ++ b)
      with (String c ((a ++ String g EmptyString) ++ b)).
    rewrite rstrip_step, IH.
    change (String c ((a ++ String g EmptyString) ++ b))
      with ((String c a ++ String g EmptyString) ++ b).
    now rewrite (not_blank_app g b (String.length (String c a)) Ha Hnb).
Qed.

(** A text without white space at its ends, followed by a newline, is
    read back as it is. *)
Lemma strip_line (s : string) :
  s <> EmptyString -> lstrip s = s -> rstrip s = s -> strip (s ++ nl) = s.
Proof.
  intros Hne Hl Hr. unfold strip, nl.
  rewrite (lstrip_app_ascii s EmptyString (ascii_of_nat 10) eq_refl Hne Hl).
  now rewrite rstrip_app_space.
Qed.

Lemma lstrip_spaces (s : string) :
  all_chars is_space s = true -> lstrip s = EmptyString.
Proof.
  induction s as [|c s IH]; [reflexivity|]. cbn [all_chars].
  intros Hs. apply andb_true_iff in Hs. destruct Hs as [Hc Hs].
  rewrite lstrip_step, Hc. auto.
Qed.

(** *** Printed lines *)

Lemma printed_join (ls : list string) :
  ls <> [] -> printed ls = join nl ls ++ nl.
Proof.
  induction ls as [|x ls IH]; [easy|]. intros _.
  destruct ls as [|y ls].
  - reflexivity.
  - change (printed (x :: y :: ls)) with (x ++ nl ++ printed (y :: ls)).
    rewrite IH by discriminate. rewrite join_cons.
    now rewrite !append_assoc.
Qed.

Lemma join_tidy (ls : list string) :
  ls <> [] -> Forall tidy ls ->
  join nl ls <> EmptyString
  /\ rstrip (join nl ls) = join nl ls
  /\ lstrip (join nl ls) = join nl ls.
Proof.
  intros Hne Hall. induction Hall as [|x ls Hx Hall IH]; [now elim Hne|].
  destruct Hx as (_ & Hr & (c & x' & -> & Hc) & Hl).
  destruct ls as [|y ls].
  - cbn [join]. repeat split; [discriminate | exact Hr | exact Hl].
  - destruct (IH ltac:(discriminate)) as (IHn & IHr & _).
    rewrite join_cons. repeat split.
    + discriminate.
    + unfold nl. rewrite <- append_assoc.
      apply rstrip_app_fixed; [reflexivity | exact IHn | exact IHr].
    + unfold nl. cbn [append].
      apply (lstrip_app_ascii (String c x')); [reflexivity | discriminate | exact Hl].
Qed.

(** Printed tidy lines are split back as they were printed. *)
Lemma lines_split_back (ls : list string) :
  ls <> [] -> Forall tidy ls ->
  split (strip (printed ls)) nl = ls.
Proof.
  intros Hne Hall.
  rewrite printed_join by exact Hne.
  destruct (join_tidy ls Hne Hall) as (Hn & Hr & Hl).
  rewrite (strip_line _ Hn Hl Hr).
  apply split_join_lines; [exact Hne|].
  eapply Forall_impl; [|exact Hall]. now intros l [Hnl _].
Qed.

Lemma lines_read_back (ls : list string) :
  Forall tidy ls ->
  filter truthy (split (strip (printed ls)) nl) = ls.
Proof.
  intros Hall. destruct ls as [|x ls]; [reflexivity|].
  rewrite lines_split_back by (discriminate || exact Hall).
  apply forallb_filter_id. apply forallb_forall. intros l Hl.
  rewrite Forall_forall in Hall.
  destruct (Hall l Hl) as (_ & _ & (c' & l' & -> & _) & _). reflexivity.
Qed.

End TextFacts.

(** ** The branch cell: reading [git ls-remote] *)

Module HeadsFacts.
Import PyStr PyStrFacts Shape TextFacts.

Lemma hex_not_space (c : ascii) : is_hex c = true -> is_space c = false.
Proof.
  destruct c as [[] [] [] [] [] [] [] []]; vm_compute; congruence.
Qed.

Lemma hex_not_newline (c : ascii) :
  is_hex c = true -> negb (Ascii.eqb c (ascii_of_nat 10)) = true.
Proof.
  destruct c as [[] [] [] [] [] [] [] []]; vm_compute; congruence.
Qed.

Lemma hex_not_r (c : ascii) :
  is_hex c = true -> negb (Ascii.eqb c "r"%char) = true.
Proof.
  destruct c as [[] [] [] [] [] [] [] []]; vm_compute; congruence.
Qed.


Lemma hex_is_ascii (c : ascii) : is_hex c = true -> is_ascii c = true.
Proof.
  destruct c as [[] [] [] [] [] [] [] []]; vm_compute; congruence.
Qed.

Lemma head_line_assoc (sha name : string) :
  head_line (sha, name)
  = ((sha ++ tab ++ "refs/heads") ++ String "/"%char EmptyString) ++ name.
Proof.
  unfold head_line. cbn [fst snd]. rewrite !append_assoc. reflexivity.
Qed.

Lemma head_line_tidy (e : string * string) :
  well_formed e -> tidy (head_line e).
Proof.
  destruct e as [sha name]. unfold well_formed, hex_sha, trimmed.
  cbn [fst snd]. intros (Hsha & (Hne & Hl & Hr) & Hnl & _).
  apply andb_true_iff in Hsha. destruct Hsha as [Hst Hsha].
  destruct sha as [|c sha]; [discriminate|].
  pose proof Hsha as Hc. cbn [all_chars] in Hc.
  apply andb_true_iff in Hc. destruct Hc as [Hc _].
  repeat split.
  - unfold head_line, no_newline. cbn [fst snd]. rewrite !all_chars_app.
    rewrite (all_chars_impl _ _ _ hex_not_newline Hsha).
    unfold no_newline in Hnl. rewrite Hnl. reflexivity.
  - rewrite head_line_assoc.
    apply rstrip_app_fixed; [reflexivity | exact Hne | exact Hr].
  - exists c, (sha ++ tab ++ "refs/heads/" ++ name).
    split; [reflexivity | now apply hex_not_space].
  - unfold head_line. cbn [fst snd append].
    apply lstrip_ascii_head; [now apply hex_is_ascii | now apply hex_not_space].
Qed.

(** The branch of a line is the name after [refs/heads/]. *)
Lemma head_line_branch (e : string * string) :
  well_formed e ->
  last_piece (split (head_line e) "refs/heads/") = snd e.
Proof.
  destruct e as [sha name]. unfold well_formed, head_line, hex_sha.
  cbn [fst snd]. intros (Hsha & _ & _ & Hc).
  apply andb_true_iff in Hsha. destruct Hsha as [_ Hsha].
  rewrite <- append_assoc.
  rewrite split_first.
  - rewrite (split_absent _ _ Hc). reflexivity.
  - rewrite all_chars_app.
    rewrite (all_chars_impl _ _ sha hex_not_r Hsha). reflexivity.
Qed.

Lemma parse_heads_printed (entries : list (string * string)) :
  Forall well_formed entries ->
  parse_heads (printed (map head_line entries)) = map snd entries.
Proof.
  intros Hall. unfold parse_heads.
  rewrite lines_read_back.
  - rewrite map_map. apply map_ext_in. intros e He.
    apply head_line_branch. rewrite Forall_forall in Hall. now apply Hall.
  - apply Forall_map. eapply Forall_impl; [|exact Hall].
    intros e. apply head_line_tidy.
Qed.

End HeadsFacts.

Section BranchCellFacts.
Context {W : Type} `{World W}.
Import PyStr PyDict Shape HeadsFacts BaselineCatalog BaselineCatalogFacts.

Lemma sorted_Permutation (l : list string) : Permutation (sorted l) l.
Proof.
  assert (Hins : forall x l, Permutation (insert_sorted x l) (x :: l)).
  { intros x l0. induction l0 as [|y l0 IH]; simpl; [reflexivity|].
    destruct (String.leb x y); [reflexivity|].
    rewrite IH. apply perm_swap. }
  induction l as [|x l IH]; simpl; [constructor|].
  rewrite Hins. now constructor.
Qed.

Lemma get_github_branches_run (w : W) :
  _get_github_branches (start w) =
  let '(w1, o) := subprocess_run w Cmd2.ls_remote in
  (CellState w1 [EvRun Cmd2.ls_remote] EmptyString,
   inl (match o with
        | inl r => if (returncode r =? 0)%Z
                   then sorted (parse_heads (stdout r))
                   else []
        | inr _ => []
        end)).
Proof.
  unfold _get_github_branches, try_except, bind, run, ret, start.
  cbn [world trace output app].
  destruct (subprocess_run w Cmd2.ls_remote) as [w1 [r|e]]; [|reflexivity].
  destruct (returncode r =? 0)%Z; reflexivity.
Qed.

(** When [git ls-remote] exits with 0 and prints one well-formed line per
    head, [_get_github_branches] returns exactly the branch names of
    those lines, in ascending order. *)
Theorem ls_remote_heads_read_back
        (w w1 : W) (entries : list (string * string)) (err : string) :
  Forall well_formed entries ->
  subprocess_run w Cmd2.ls_remote
  = (w1, inl (Completed 0 (printed (map head_line entries)) err)) ->
  snd (_get_github_branches (start w)) = inl (sorted (map snd entries))
  /\ Permutation (sorted (map snd entries)) (map snd entries)
  /\ StronglySorted le (sorted (map snd entries)).
Proof.
  intros Hall Hrun. split; [|split].
  - rewrite get_github_branches_run, Hrun. cbn [snd returncode stdout Z.eqb].
    now rewrite parse_heads_printed.
  - apply sorted_Permutation.
  - apply sorted_ordered.
Qed.

(** When [git ls-remote] exits non-zero or raises, no exception leaves
    [_get_github_branches], it returns no branch, and the dropdown offers
    the three fallback branches with "macOS 26 Tahoe" selected. *)
Theorem ls_remote_failure_falls_back (w : W) :
  match snd (subprocess_run w Cmd2.ls_remote) with
  | inl r => returncode r <> 0%Z
  | inr _ => True
  end ->
  snd (_get_github_branches (start w)) = inl []
  /\ branch_dropdown w
     = Some (BranchCatalog.fallback_branches, Some "macOS 26 Tahoe").
Proof.
  intros Hfail.
  assert (Hb : snd (_get_github_branches (start w)) = inl []).
  { rewrite get_github_branches_run.
    destruct (subprocess_run w Cmd2.ls_remote) as [w1 [r|e]]; [|reflexivity].
    cbn [snd] in *. destruct (Z.eqb_spec (returncode r) 0); [contradiction|].
    reflexivity. }
  split; [exact Hb|].
  unfold branch_dropdown, branch_cell, bind, ret.
  destruct (_get_github_branches (start w)) as [s1 [bs|e]];
    cbn [snd] in Hb; [|discriminate].
  injection Hb as ->. reflexivity.
Qed.

End BranchCellFacts.

Module BranchCellScenarios.
Import PyStr PyDict Shape Scenario.

Lemma ls_remote_heads_read_back_witness :
  snd (_get_github_branches (start remote_heads))
  = inl ["dev_2.0"; "ios_18"; "sequoia"; "sonoma_fix"; "tahoe"].
Proof.
  apply (ls_remote_heads_read_back remote_heads remote_heads
           [ ("1f0c3a", "tahoe"); ("9be2d1", "dev_2.0"); ("77aa01", "sequoia");
             ("c0ffee", "ios_18"); ("deadbe", "sonoma_fix") ] EmptyString).
  - repeat (constructor || discriminate).
  - reflexivity.
Defined.

Lemma ls_remote_failure_falls_back_witness :
  branch_dropdown no_network
  = Some (BranchCatalog.fallback_branches, Some "macOS 26 Tahoe").
Proof.
  apply (ls_remote_failure_falls_back no_network). simpl. discriminate.
Defined.

Example dropdown_of_remote_heads :
  branch_dropdown remote_heads
  = Some ([ ("iOS/iPadOS 18", "ios_18"); ("macOS 15 Sequoia", "sequoia");
            ("macOS 26 Tahoe", "tahoe") ],
          Some "macOS 26 Tahoe").
Proof. reflexivity. Qed.

End BranchCellScenarios.

(** ** The branch cell: what the dropdown offers *)

Module BranchDisplayFacts.
Import PyStr PyDict PyDictFacts BranchCatalog.

Lemma mem_keys (d : dict) (k : string) : mem d k = true <-> In k (keys d).
Proof.
  unfold mem, keys. induction d as [|[k' v'] d IH]; simpl.
  - split; [discriminate | intros []].
  - destruct (String.eqb k' k) eqn:E.
    + apply String.eqb_eq in E. subst. intuition.
    + apply String.eqb_neq in E. rewrite IH. intuition.
Qed.

Lemma step_keeps_keys (d : dict) (b k : string) :
  In k (keys d) -> In k (keys (branch_step d b)).
Proof.
  intros Hk. unfold branch_step.
  destruct (mem _platform_map b).
  - destruct (get _platform_map b); [|assumption].
    apply keys_set. now left.
  - destruct (negb (startswith_any b excluded_prefixes)); [|assumption].
    destruct (negb (existsb (fun x => contains x b) excluded_substrings));
      [|assumption].
    apply keys_set. now left.
Qed.

Lemma steps_keep_keys (raw : list string) (d : dict) (k : string) :
  In k (keys d) -> In k (keys (steps raw d)).
Proof.
  revert d. induction raw as [|b raw IH]; cbn [steps fold_left In]; intros d Hk; [assumption|].
  apply IH. now apply step_keeps_keys.
Qed.

(** The branch of the lookup table brings the key of its label. *)
Lemma steps_add_label (raw : list string) (d : dict) (b label : string) :
  In b raw -> get _platform_map b = Some label ->
  In label (keys (steps raw d)).
Proof.
  revert d. induction raw as [|x raw IH]; cbn [steps fold_left In]; intros d Hin Hg; [easy|].
  destruct Hin as [-> | Hin]; [|now apply IH].
  apply steps_keep_keys. unfold branch_step, mem. rewrite Hg.
  apply keys_set. now right.
Qed.

(** Keys and values come from the list or were there before. *)
Lemma steps_entries (raw : list string) (d : dict) (k v : string) :
  In (k, v) (steps raw d) ->
  In (k, v) d
  \/ (In v raw /\ (get _platform_map v = Some k
                   \/ (mem _platform_map v = false /\ k = v))).
Proof.
  revert d. induction raw as [|x raw IH]; cbn [steps fold_left In]; intros d Hin; [now left|].
  apply IH in Hin. destruct Hin as [Hin | [Hv Hk]]; [|right; tauto].
  unfold branch_step in Hin.
  destruct (mem _platform_map x) eqn:Hm.
  - destruct (get _platform_map x) as [label|] eqn:Hg; [|now left].
    apply In_set in Hin. destruct Hin as [Hin | Heq]; [now left|].
    injection Heq as -> ->. right. split; [now left | now left].
  - destruct (negb (startswith_any x excluded_prefixes)); [|now left].
    destruct (negb (existsb (fun y => contains y x) excluded_substrings));
      [|now left].
    apply In_set in Hin. destruct Hin as [Hin | Heq]; [now left|].
    injection Heq as -> ->. right. split; [now left | right; now split].
Qed.

Lemma labels_distinct : NoDup (values _platform_map).
Proof.
  repeat constructor; simpl; intuition discriminate.
Qed.

Lemma NoDup_values_inj (l : dict) (a b v : string) :
  NoDup (values l) -> In (a, v) l -> In (b, v) l -> a = b.
Proof.
  unfold values. induction l as [|[k w] l IH]; simpl; [easy|].
  intros Hnd. inversion Hnd as [|? ? Hnin Hnd']; subst.
  intros [Ha | Ha] [Hb | Hb].
  - congruence.
  - injection Ha as -> ->. exfalso. apply Hnin.
    now apply (in_map snd) in Hb.
  - injection Hb as -> ->. exfalso. apply Hnin.
    now apply (in_map snd) in Ha.
  - auto.
Qed.

Lemma label_of_one_branch (a b label : string) :
  get _platform_map a = Some label -> get _platform_map b = Some label -> a = b.
Proof.
  intros Ha Hb. apply get_In in Ha, Hb.
  exact (NoDup_values_inj _ _ _ _ labels_distinct Ha Hb).
Qed.

Lemma get_values (d : dict) (k v : string) :
  get d k = Some v -> In v (values d).
Proof.
  intros Hg. apply get_In in Hg. apply In_values. now exists k.
Qed.

(** Once a label is bound to its branch it stays so, as long as no later
    branch is named like the label. *)
Lemma steps_keep_label (raw : list string) (d : dict) (b label : string) :
  get _platform_map b = Some label ->
  ~ In label raw ->
  get d label = Some b ->
  get (steps raw d) label = Some b.
Proof.
  intros Hg. revert d. induction raw as [|x raw IH]; cbn [steps fold_left In]; intros d Hn Hd;
    [assumption|].
  apply IH; [tauto|].
  unfold branch_step.
  destruct (mem _platform_map x) eqn:Hm.
  - destruct (get _platform_map x) as [lx|] eqn:Hx; [|assumption].
    destruct (string_dec lx label) as [->|Hne].
    + rewrite (label_of_one_branch _ _ _ Hx Hg). apply get_set_same.
    + now rewrite get_set_other.
  - destruct (negb (startswith_any x excluded_prefixes)); [|assumption].
    destruct (negb (existsb (fun y => contains y x) excluded_substrings));
      [|assumption].
    rewrite get_set_other; [assumption|]. intros ->. apply Hn. now left.
Qed.

Lemma steps_bind_label (raw : list string) (d : dict) (b label : string) :
  get _platform_map b = Some label ->
  ~ In label raw ->
  In b raw ->
  get (steps raw d) label = Some b.
Proof.
  intros Hg. revert d. induction raw as [|x raw IH]; cbn [steps fold_left In]; intros d Hn Hin;
    [easy|].
  destruct (in_dec string_dec b raw) as [Hr | Hnr].
  - apply IH; tauto.
  - destruct Hin as [-> | Hin]; [|contradiction].
    apply steps_keep_label; [assumption | tauto |].
    unfold branch_step, mem. rewrite Hg. apply get_set_same.
Qed.

Lemma steps_keep_verbatim (raw : list string) (d : dict) (b : string) :
  ~ In b (values _platform_map) ->
  get d b = Some b ->
  get (steps raw d) b = Some b.
Proof.
  intros Hnl. revert d. induction raw as [|x raw IH]; cbn [steps fold_left In]; intros d Hd;
    [assumption|].
  apply IH. unfold branch_step.
  destruct (mem _platform_map x) eqn:Hm.
  - destruct (get _platform_map x) as [lx|] eqn:Hx; [|assumption].
    rewrite get_set_other; [assumption|].
    intros ->. apply Hnl. now apply get_values in Hx.
  - destruct (negb (startswith_any x excluded_prefixes)); [|assumption].
    destruct (negb (existsb (fun y => contains y x) excluded_substrings));
      [|assumption].
    destruct (string_dec x b) as [->|Hne]; [apply get_set_same|].
    now rewrite get_set_other.
Qed.

Lemma display_of_steps (raw : list string) (k v : string) :
  get (steps raw []) k = Some v -> _branch_display raw = steps raw [].
Proof.
  unfold _branch_display. fold (steps raw []).
  destruct (steps raw []); [discriminate | reflexivity].
Qed.

(** A branch of the lookup table that the remote lists is offered under
    its label, provided no remote branch is itself named like that
    label. *)
Theorem platform_branch_under_its_label
        (_raw_branches : list string) (_b label : string) :
  In _b _raw_branches ->
  get _platform_map _b = Some label ->
  ~ In label _raw_branches ->
  get (_branch_display _raw_branches) label = Some _b.
Proof.
  intros Hin Hg Hn.
  pose proof (steps_bind_label _raw_branches [] _b label Hg Hn Hin) as Hs.
  now rewrite (display_of_steps _ _ _ Hs).
Qed.

(** A remote branch outside the lookup table and outside the exclusion
    patterns is offered under its own name, provided that name is not
    one of the labels of the table. *)
Theorem unknown_branch_offered_verbatim
        (_raw_branches : list string) (_b : string) :
  In _b _raw_branches ->
  mem _platform_map _b = false ->
  matches_exclusion _b = false ->
  ~ In _b (values _platform_map) ->
  get (_branch_display _raw_branches) _b = Some _b.
Proof.
  intros Hin Hm Hx Hnl.
  assert (Hs : get (steps _raw_branches []) _b = Some _b).
  { generalize ([] : dict).
    induction _raw_branches as [|x raw IH]; cbn [steps fold_left In] in *; intros d; [easy|].
    destruct (in_dec string_dec _b raw) as [Hr | Hnr]; [now apply IH|].
    destruct Hin as [-> | Hin]; [|contradiction].
    apply steps_keep_verbatim; [assumption|].
    unfold branch_step. rewrite Hm.
    unfold matches_exclusion in Hx. apply orb_false_iff in Hx.
    destruct Hx as [-> ->]. cbn [negb]. apply get_set_same. }
  now rewrite (display_of_steps _ _ _ Hs).
Qed.

(** Every branch the dropdown offers is one the remote listed, or the
    remote gave nothing to offer and it is one of the three fallback
    branches. *)
Theorem offered_branches_come_from_remote
        (_raw_branches : list string) (v : string) :
  In v (values (_branch_display _raw_branches)) ->
  In v _raw_branches
  \/ (fold_left branch_step _raw_branches [] = []
      /\ In v ["tahoe"; "sequoia"; "ios_26"]).
Proof.
  unfold _branch_display. fold (steps _raw_branches []).
  destruct (steps _raw_branches []) as [|e d] eqn:Hs; cbn [truthy negb].
  - intros Hin. right. split; [reflexivity | exact Hin].
  - rewrite <- Hs. intros Hin. left.
    apply In_values in Hin. destruct Hin as [k Hin].
    apply steps_entries in Hin. destruct Hin as [[] | [Hv _]]. exact Hv.
Qed.

(** The mapping is never empty and the default value is always one of
    its keys: [list(_branch_display.keys())[0]] cannot fail. *)
Theorem default_is_an_option (_raw_branches : list string) :
  _branch_display _raw_branches <> []
  /\ exists k, _default (_branch_display _raw_branches) = Some k
               /\ In k (keys (_branch_display _raw_branches)).
Proof.
  assert (Hne : _branch_display _raw_branches <> []).
  { unfold _branch_display.
    destruct (fold_left branch_step _raw_branches []); discriminate. }
  split; [exact Hne|].
  unfold _default.
  destruct (mem (_branch_display _raw_branches) "macOS 26 Tahoe") eqn:Ht.
  - eexists. split; [reflexivity | now apply mem_keys].
  - destruct (mem (_branch_display _raw_branches) "macOS 15 Sequoia") eqn:Hq.
    + eexists. split; [reflexivity | now apply mem_keys].
    + destruct (_branch_display _raw_branches) as [|[k v] d]; [contradiction|].
      exists k. split; [reflexivity | now left].
Qed.

(** The default follows the remote: with [tahoe] listed it is
    "macOS 26 Tahoe"; with [sequoia] listed, [tahoe] not, and no branch
    named "macOS 26 Tahoe", it is "macOS 15 Sequoia". *)
Theorem default_prefers_newest_macos (_raw_branches : list string) :
  (In "tahoe" _raw_branches ->
   _default (_branch_display _raw_branches) = Some "macOS 26 Tahoe")
  /\ (In "sequoia" _raw_branches ->
      ~ In "tahoe" _raw_branches ->
      ~ In "macOS 26 Tahoe" _raw_branches ->
      _default (_branch_display _raw_branches) = Some "macOS 15 Sequoia").
Proof.
  split.
  - intros Hin.
    pose proof (steps_add_label _raw_branches [] "tahoe" "macOS 26 Tahoe"
                  Hin eq_refl) as Hk.
    assert (Hd : _branch_display _raw_branches = steps _raw_branches []).
    { unfold _branch_display. fold (steps _raw_branches []).
      destruct (steps _raw_branches []); [destruct Hk | reflexivity]. }
    unfold _default. rewrite Hd.
    apply mem_keys in Hk. now rewrite Hk.
  - intros Hin Hnt Hnl.
    pose proof (steps_add_label _raw_branches [] "sequoia" "macOS 15 Sequoia"
                  Hin eq_refl) as Hk.
    assert (Hd : _branch_display _raw_branches = steps _raw_branches []).
    { unfold _branch_display. fold (steps _raw_branches []).
      destruct (steps _raw_branches []); [destruct Hk | reflexivity]. }
    unfold _default. rewrite Hd.
    destruct (mem (steps _raw_branches []) "macOS 26 Tahoe") eqn:Ht.
    + exfalso. apply mem_keys in Ht. apply In_keys in Ht.
      destruct Ht as [v Hv]. apply steps_entries in Hv.
      destruct Hv as [[] | [Hv [Hg | [_ Heq]]]].
      * apply get_In in Hg.
        assert (v = "tahoe")
          by (apply (NoDup_values_inj _ _ _ _ labels_distinct Hg);
              simpl; auto).
        subst. contradiction.
      * subst. contradiction.
    + apply mem_keys in Hk. now rewrite Hk.
Qed.

Lemma platform_branch_under_its_label_witness :
  get (_branch_display ["dev_2.0"; "sequoia"; "sonoma"; "tahoe"]) "macOS 14 Sonoma"
  = Some "sonoma".
Proof.
  apply (platform_branch_under_its_label
           ["dev_2.0"; "sequoia"; "sonoma"; "tahoe"] "sonoma" "macOS 14 Sonoma").
  - simpl. auto.
  - reflexivity.
  - simpl. intuition discriminate.
Defined.

Lemma unknown_branch_offered_verbatim_witness :
  get (_branch_display ["dev_2.0"; "feature_x"; "tahoe"]) "feature_x"
  = Some "feature_x".
Proof.
  apply (unknown_branch_offered_verbatim ["dev_2.0"; "feature_x"; "tahoe"] "feature_x").
  - simpl. auto.
  - reflexivity.
  - reflexivity.
  - simpl. intuition discriminate.
Defined.

Lemma offered_branches_come_from_remote_witness :
  In "tahoe" ["dev_2.0"; "tahoe"]
  \/ (fold_left branch_step ["dev_2.0"; "tahoe"] [] = []
      /\ In "tahoe" ["tahoe"; "sequoia"; "ios_26"]).
Proof.
  apply (offered_branches_come_from_remote ["dev_2.0"; "tahoe"] "tahoe").
  simpl. auto.
Defined.

Lemma default_prefers_newest_macos_witness :
  _default (_branch_display ["main"; "sequoia"; "sonoma"]) = Some "macOS 15 Sequoia".
Proof.
  apply (proj2 (default_prefers_newest_macos ["main"; "sequoia"; "sonoma"])).
  - simpl. auto.
  - simpl. intuition discriminate.
  - simpl. intuition discriminate.
Defined.

End BranchDisplayFacts.

(** ** The baseline cell: what the dropdown offers *)

Module BaselineMappingFacts.
Import PyStr PyDict PyDictFacts PyStrFacts Shape TextFacts.
Import BaselineCatalog BaselineCatalogFacts.

(** The fixed table of five baselines is used exactly when there is
    nothing to scan: the directory is absent or holds no [*.yaml] entry.
    Otherwise the mapping is the one scanned, and it is not empty. *)
Theorem fallback_only_without_baselines (dir_exists : bool) (names : list string) :
  (dir_exists = false \/ glob_yaml names = [] ->
   _baselines dir_exists names = fallback_baselines)
  /\ (dir_exists = true -> glob_yaml names <> [] ->
      _baselines dir_exists names = scan names /\ scan names <> []).
Proof.
  split.
  - intros [-> | Hg]; [reflexivity|].
    unfold _baselines, scan. rewrite Hg. now destruct dir_exists.
  - intros -> Hne. destruct (glob_yaml names) as [|f l] eqn:Hg; [contradiction|].
    assert (Hin : In f (glob_yaml names)) by (rewrite Hg; now left).
    pose proof (scan_nonempty names f Hin) as Hs. split; [exact Hs|].
    intros He. rewrite He in Hs. unfold _baselines in Hs.
    rewrite He in Hs. discriminate Hs.
Qed.

(** Every value the scan offers is the stem of a [*.yaml] entry of the
    directory, and it names that entry back: the generation cell will
    look for [<value>.yaml], which is the entry itself unless the entry
    is the file named [.yaml]. *)
Theorem offered_values_name_files (names : list string) (v : string) :
  In v (values (scan names)) ->
  exists f, In f names /\ endswith f ".yaml" = true /\ v = stem f
            /\ (f <> ".yaml" -> file_of_value v = f).
Proof.
  intros Hin. apply In_values in Hin. destruct Hin as [k Hin].
  unfold scan in Hin. apply loop_entries in Hin.
  destruct Hin as [[] | [g [Hg Heq]]]. injection Heq as -> ->.
  apply (proj1 (In_sorted _ _)) in Hg.
  pose proof (proj1 (glob_yaml_In _ _) Hg) as [Hn He].
  exists g. repeat split; try assumption.
  intros Hne. destruct (endswith_split _ _ He) as [s ->].
  rewrite file_of_stem. destruct s; [now elim Hne | reflexivity].
Qed.

(** A baseline file whose label no other file of the directory shares is
    offered under that label. *)
Theorem unique_label_is_offered (names : list string) (f : string) :
  In f (glob_yaml names) ->
  (forall g, In g (glob_yaml names) -> label_of_file g = label_of_file f -> g = f) ->
  get (_baselines true names) (label_of_file f) = Some (stem f).
Proof.
  intros Hin Huniq. rewrite (scan_nonempty names f Hin).
  unfold scan. apply loop_last_wins.
  - apply sorted_ordered.
  - now apply In_sorted.
  - intros g Hg Hl. apply (proj1 (In_sorted _ _)) in Hg.
    rewrite (Huniq g Hg Hl). apply leb_refl.
Qed.

(** The labels of the dropdown are pairwise distinct, and the label of
    every baseline file of the directory is among them. *)
Theorem labels_distinct_and_complete (names : list string) :
  NoDup (keys (scan names))
  /\ (forall f, In f (glob_yaml names) ->
                In (label_of_file f) (keys (scan names))).
Proof.
  split.
  - unfold scan. apply loop_NoDup. constructor.
  - intros f Hin. unfold scan.
    destruct (loop_has_label (sorted (glob_yaml names)) [] f) as [v Hv];
      [now apply In_sorted|].
    apply get_In in Hv. apply In_keys. now exists v.
Qed.

(** *** The generic label *)

Lemma title_from_all_chars (p : ascii -> bool) (flag : bool) (s : string) :
  keeps p -> all_chars p s = true -> all_chars p (title_from flag s) = true.
Proof.
  intros Hk. revert flag. induction s as [|c s IH]; intros flag; [reflexivity|].
  cbn [all_chars title_from]. intros Hs.
  apply andb_true_iff in Hs. destruct Hs as [Hc Hs].
  destruct (Hk c Hc) as [Hu Hl].
  destruct (is_lower c); [|destruct (is_upper c)]; destruct flag;
    cbn [all_chars]; rewrite ?Hc, ?Hu, ?Hl, IH; auto.
Qed.

Lemma keeps_not_underscore : keeps (is_not "_"%char).
Proof.
  intros c. destruct c as [[] [] [] [] [] [] [] []]; vm_compute; auto.
Qed.

Lemma keeps_not_hyphen : keeps (is_not "-"%char).
Proof.
  intros c. destruct c as [[] [] [] [] [] [] [] []]; vm_compute; auto.
Qed.

(** Replacing a character by a space leaves none of it, and brings no
    character that was not there except the space. *)
Lemma replace_char_all (x : ascii) (p : ascii -> bool) (s : string) :
  p " "%char = true ->
  (forall c, Ascii.eqb c x = false -> In c (list_ascii_of_string s) -> p c = true) ->
  all_chars p (replace s (String x EmptyString) " ") = true.
Proof.
  intros Hsp. unfold replace.
  induction s as [|c s IH]; intros Hall; [reflexivity|].
  cbn [replace_from String.length Nat.sub].
  assert (Hrest : forall c0, Ascii.eqb c0 x = false ->
                     In c0 (list_ascii_of_string s) -> p c0 = true).
  { intros c0 H0 Hin. apply Hall; [assumption | now right]. }
  destruct (Ascii.eqb c x) eqn:E.
  - apply Ascii.eqb_eq in E. subst c.
    replace (String.prefix (String x EmptyString) (String x s)) with true.
    + cbn [append all_chars]. rewrite Hsp. now apply IH.
    + symmetry. simpl. destruct (ascii_dec x x) as [_|Hn]; [|now elim Hn].
      now destruct s.
  - rewrite (prefix_head_neq x c EmptyString s E).
    cbn [all_chars]. rewrite (Hall c E (or_introl eq_refl)). now apply IH.
Qed.

Lemma all_chars_In (p : ascii -> bool) (s : string) (c : ascii) :
  all_chars p s = true -> In c (list_ascii_of_string s) -> p c = true.
Proof.
  induction s as [|a s IH]; cbn [all_chars list_ascii_of_string]; [easy|].
  intros Hs. apply andb_true_iff in Hs. destruct Hs as [Ha Hs].
  intros [<- | Hin]; auto.
Qed.

(** A stem that reaches the last rule of the label table gets a label
    without underscore and without hyphen. *)
Theorem generic_label_has_no_separator (_name : string) :
  contains "byod" (lower _name) = false ->
  contains "enterprise" (lower _name) = false ->
  contains "indigo" (lower _name) = false ->
  contains "cis" (lower _name) = false ->
  contains "800-53" _name = false ->
  contains "800-171" _name = false ->
  contains "cmmc" (lower _name) = false ->
  contains "cnssi" (lower _name) = false ->
  contains "all_rules" (lower _name) = false ->
  all_chars (is_not "_"%char) (display_name _name) = true
  /\ all_chars (is_not "-"%char) (display_name _name) = true.
Proof.
  intros H1 H2 H3 H4 H5 H6 H7 H8 H9. unfold display_name.
  rewrite H1, H2, H3, H4, H5, H6, H7, H8, H9.
  assert (Hu : all_chars (is_not "_"%char) (replace _name "_" " ") = true).
  { apply replace_char_all; [reflexivity|].
    intros c Hc _. unfold is_not. now rewrite Hc. }
  split; unfold title; apply title_from_all_chars.
  - apply keeps_not_underscore.
  - apply replace_char_all; [reflexivity|].
    intros c _ Hin. exact (all_chars_In _ _ c Hu Hin).
  - apply keeps_not_hyphen.
  - apply replace_char_all; [reflexivity|].
    intros c Hc _. unfold is_not. now rewrite Hc.
Qed.

Lemma fallback_only_without_baselines_witness :
  _baselines true ["README.md"; "notes.txt"] = fallback_baselines.
Proof.
  apply (proj1 (fallback_only_without_baselines true ["README.md"; "notes.txt"])).
  right. reflexivity.
Defined.

Lemma offered_values_name_files_witness :
  exists f, In f ["cis_lvl1.yaml"; "README.md"]
            /\ endswith f ".yaml" = true /\ "cis_lvl1" = stem f
            /\ (f <> ".yaml" -> file_of_value "cis_lvl1" = f).
Proof.
  apply (offered_values_name_files ["cis_lvl1.yaml"; "README.md"] "cis_lvl1").
  simpl. auto.
Defined.

Lemma unique_label_is_offered_witness :
  get (_baselines true ["cis_lvl2.yaml"; "cis_lvl1.yaml"; "800-171.yaml"])
      "CIS Lvl1" = Some "cis_lvl1".
Proof.
  apply (unique_label_is_offered
           ["cis_lvl2.yaml"; "cis_lvl1.yaml"; "800-171.yaml"] "cis_lvl1.yaml").
  - simpl. auto.
  - intros g Hg Hl. simpl in Hg.
    destruct Hg as [<- | [<- | [<- | []]]];
      first [reflexivity | discriminate Hl].
Defined.

Lemma generic_label_has_no_separator_witness :
  all_chars (is_not "_"%char) (display_name "stig_mac-os") = true
  /\ all_chars (is_not "-"%char) (display_name "stig_mac-os") = true.
Proof.
  apply (generic_label_has_no_separator "stig_mac-os"); reflexivity.
Defined.

End BaselineMappingFacts.

(** ** The status cell and the branch the sync cell reads *)

Section StatusFacts.
Context {W : Type} `{World W}.
Import PyStr PyStrFacts Shape TextFacts.


(** On a clone whose [git rev-parse] prints the desired branch, a name
    without white space at its ends (ASCII or not), the sync cell reads
    that name back, pulls, and runs nothing of the Clone and Switch
    actions. *)
Theorem sync_on_desired_branch_pulls
        (w w1 : W) (_path branch err : string) :
  path_exists w _path = true ->
  trimmed branch ->
  subprocess_run w (Cmd.rev_parse _path)
  = (w1, inl (Completed 0 (branch ++ nl) err)) ->
  current_branch w _path = Some branch
  /\ sync_events w _path branch
     = [EvExists _path; EvRun (Cmd.rev_parse _path); EvRun (Cmd.pull _path)].
Proof.
  intros Hex (Hne & Hl & Hr) Hrun.
  assert (Hcur : current_branch w _path = Some branch).
  { rewrite current_branch_outcome, Hrun.
    cbn [snd branch_of_outcome returncode stdout Z.eqb].
    now rewrite strip_line. }
  split; [exact Hcur|].
  unfold sync_events. rewrite sync_run, Hex, Hrun.
  cbn [branch_of_outcome returncode stdout Z.eqb]. cbn zeta.
  rewrite (strip_line _ Hne Hl Hr).
  unfold needs_switch. rewrite String.eqb_refl, andb_false_r.
  cbn [negb select_action perform fst].
  rewrite pull_action_run. cbn [world trace].
  destruct (subprocess_run w1 (Cmd.pull _path)) as [w2 o]. reflexivity.
Qed.

(** On a clone whose [git rev-parse] prints another branch, a name
    without white space at its ends (ASCII or not), the sync cell starts
    the Switch action from that branch: the first subprocess after the
    probe is the branch registration, no clone and no pull runs, and the
    log opens with "Switching from <current> to <desired>". *)
Theorem sync_on_other_branch_switches
        (w w1 : W) (_path branch cur err : string) :
  path_exists w _path = true ->
  trimmed cur ->
  cur <> branch ->
  subprocess_run w (Cmd.rev_parse _path)
  = (w1, inl (Completed 0 (cur ++ nl) err)) ->
  actions_performed (sync_events w _path branch) = [Switch]
  /\ (exists rest,
         sync_events w _path branch
         = ([ EvExists _path; EvRun (Cmd.rev_parse _path);
              EvRun (Cmd.set_branches _path branch) ] ++ rest)%list)
  /\ (exists tail,
         sync_log w _path branch = switch_header (Some cur) branch ++ tail).
Proof.
  intros Hex (Hnn & Hl & Hr) Hne Hrun.
  unfold sync_events, sync_log. rewrite sync_run, Hex, Hrun.
  cbn [branch_of_outcome returncode stdout Z.eqb]. cbn zeta.
  rewrite (strip_line _ Hnn Hl Hr).
  assert (Hns : needs_switch (Some cur) branch = true).
  { unfold needs_switch. apply String.eqb_neq in Hne. rewrite Hne.
    destruct cur; [now elim Hnn | reflexivity]. }
  rewrite Hns. cbn [select_action fst].
  split; [apply (perform_actions Switch)|].
  cbn [perform]. rewrite switch_action_run. cbn zeta.
  cbn [world trace output app].
  destruct (subprocess_run w1 (Cmd.set_branches _path branch)) as [w2 [r1|e1]].
  - destruct (subprocess_run w2 (Cmd.fetch _path branch)) as [w3 [r2|e2]].
    + destruct (subprocess_run w3 (Cmd.checkout _path branch)) as [w4 [r3|e3]];
        cbn [fst trace output app]; split; eexists; reflexivity.
    + cbn [fst trace output app]; split; eexists; reflexivity.
  - cbn [fst trace output app]; split;
      [exists []; reflexivity | eexists; reflexivity].
Qed.

End StatusFacts.

Module StatusScenarios.
Import PyStr Shape Scenario.


Lemma sync_on_desired_branch_pulls_witness :
  current_branch diverged repo = Some "sequoia"
  /\ sync_events diverged repo "sequoia"
     = [EvExists repo; EvRun (Cmd.rev_parse repo); EvRun (Cmd.pull repo)].
Proof.
  apply (sync_on_desired_branch_pulls diverged diverged repo "sequoia" EmptyString);
    try reflexivity.
  repeat split. discriminate.
Defined.

Lemma sync_on_other_branch_switches_witness :
  actions_performed (sync_events on_sonoma repo "sequoia") = [Switch]
  /\ (exists rest,
         sync_events on_sonoma repo "sequoia"
         = ([ EvExists repo; EvRun (Cmd.rev_parse repo);
              EvRun (Cmd.set_branches repo "sequoia") ] ++ rest)%list)
  /\ (exists tail,
         sync_log on_sonoma repo "sequoia"
         = switch_header (Some "sonoma") "sequoia" ++ tail).
Proof.
  apply (sync_on_other_branch_switches on_sonoma on_sonoma repo "sequoia" "sonoma"
           EmptyString); try reflexivity.
  - repeat split. discriminate.
  - discriminate.
Defined.

End StatusScenarios.

(** ** The generation cell, its preview and the output cells *)

Section GenerateMoreFacts.
Context {W : Type} `{World W}.
Import PyStr PyStrFacts Shape TextFacts.

Ltac run_generate :=
  unfold generate, generate_cell, invoke_generator;
  unfold bind, ret, try_except, set_output, add_output, exists_, run, start;
  cbn [world trace output fst snd app].

(** Every exception of the generator subprocess is caught: once the
    existence tests of the cell have answered, no exception leaves the
    generation cell, pressed or not, whether the generator completes,
    times out, is not found or raises anything else.  (What can still
    leave the cell is a raise of [Path.exists] itself, which is outside
    the [try] and outside this embedding.) *)
Theorem generator_exceptions_are_caught
        (w : W) (generate_button : bool) (_path baseline : string)
        (boxes : checkboxes) :
  snd (generate_cell generate_button _path baseline boxes (start w)) = inl tt.
Proof.
  run_generate. destruct generate_button;
    cbn [world trace output fst snd app]; [|reflexivity].
  destruct (path_exists w _path); cbn [negb]; [|reflexivity].
  cbn [world trace output].
  destruct (path_exists w _); cbn [negb]; [|reflexivity].
  destruct (build_flags boxes) as [|f fl]; cbn [negb list_truthy]; [reflexivity|].
  cbn [world trace output].
  destruct (path_exists w _); cbn [negb]; [|reflexivity].
  cbn [world trace output].
  destruct (subprocess_run w _) as [w1 [r|e]]; cbn [world trace output snd].
  - destruct (returncode r =? 0)%Z; reflexivity.
  - destruct e; reflexivity.
Qed.

Lemma generate_ready_run
      (w : W) (_path baseline : string) (boxes : checkboxes) :
  ready w _path baseline boxes ->
  generate w _path baseline boxes =
  let bf := "baselines/" ++ baseline ++ ".yaml" in
  let c := Cmd.generate _path (build_flags boxes) bf in
  let '(w1, o) := subprocess_run w c in
  CellState w1
    [ EvExists _path;
      EvExists (joinpath _path ["scripts"; "generate_guidance.py"]);
      EvExists (joinpath _path [bf]); EvRun c ]
    (match o with
     | inl r =>
         if (returncode r =? 0)%Z
         then (stdout r ++ stderr r)
                ++ nl ++ nl ++ "Generation complete! Output in: "
                ++ _path ++ "/build/" ++ baseline ++ "/"
         else (stdout r ++ stderr r)
                ++ nl ++ nl ++ "Generation failed with exit code "
                ++ str_of_Z (returncode r)
     | inr (FileNotFoundError _) =>
         "Error: uv not found. Install with: curl -LsSf https://astral.sh/uv/install.sh | sh"
     | inr (TimeoutExpired _) => "Error: Generation timed out (5 min limit)"
     | inr (OtherException m) => "Error: " ++ m
     end).
Proof.
  intros (H1 & H2 & H3 & H4). run_generate.
  rewrite H1. cbn [negb world trace output app]. rewrite H2.
  cbn [negb world trace output app].
  destruct (build_flags boxes) as [|f fl]; [contradiction|].
  cbn [negb list_truthy world trace output app]. rewrite H4.
  cbn [negb world trace output app]. cbn zeta.
  destruct (subprocess_run w _) as [w1 [r|e]]; cbn [world trace output fst].
  - destruct (returncode r =? 0)%Z; reflexivity.
  - destruct e; reflexivity.
Qed.

(** When the generator completes, the log is what it printed followed by
    the verdict of its exit code; on exit code 0 the verdict names the
    directory that the output cells read, [<repo>/build/<baseline>]. *)
Theorem generator_verdict_names_build_dir
        (w w1 : W) (_path baseline : string) (boxes : checkboxes)
        (r : CompletedProcess) :
  ready w _path baseline boxes ->
  subprocess_run w (Cmd.generate _path (build_flags boxes)
                                 ("baselines/" ++ baseline ++ ".yaml"))
  = (w1, inl r) ->
  output (generate w _path baseline boxes)
  = captured r
      ++ (if (returncode r =? 0)%Z
          then nl ++ nl ++ "Generation complete! Output in: "
                  ++ build_dir _path baseline ++ "/"
          else nl ++ nl ++ "Generation failed with exit code "
                  ++ str_of_Z (returncode r)).
Proof.
  intros Hready Hrun. rewrite (generate_ready_run w _path baseline boxes Hready).
  cbn zeta. rewrite Hrun. cbn [output]. unfold captured, build_dir, joinpath.
  cbn [fold_left].
  destruct (returncode r =? 0)%Z; [|reflexivity].
  rewrite !append_assoc. reflexivity.
Qed.

(** When the generator raises, the log is replaced by one line that
    depends on the kind of exception only: a missing [uv], a time-out, or
    the text of any other exception. *)
Theorem generator_exception_text
        (w w1 : W) (_path baseline : string) (boxes : checkboxes) (e : exn) :
  ready w _path baseline boxes ->
  subprocess_run w (Cmd.generate _path (build_flags boxes)
                                 ("baselines/" ++ baseline ++ ".yaml"))
  = (w1, inr e) ->
  output (generate w _path baseline boxes)
  = match e with
    | FileNotFoundError _ =>
        "Error: uv not found. Install with: curl -LsSf https://astral.sh/uv/install.sh | sh"
    | TimeoutExpired _ => "Error: Generation timed out (5 min limit)"
    | OtherException m => "Error: " ++ m
    end.
Proof.
  intros Hready Hrun. rewrite (generate_ready_run w _path baseline boxes Hready).
  cbn zeta. rewrite Hrun. destruct e; reflexivity.
Qed.

End GenerateMoreFacts.

Module GenerateMoreScenarios.
Import PyStr Shape Scenario.

Lemma built_is_ready : ready built repo "cis_lvl1" all_boxes.
Proof. repeat split. discriminate. Qed.

Lemma no_uv_is_ready : ready no_uv repo "cis_lvl1" all_boxes.
Proof. repeat split. discriminate. Qed.

Lemma generator_verdict_names_build_dir_witness :
  output (generate built repo "cis_lvl1" all_boxes)
  = nl ++ nl ++ "Generation complete! Output in: ./macos_security/build/cis_lvl1/".
Proof.
  exact (generator_verdict_names_build_dir
           built built repo "cis_lvl1" all_boxes
           (Completed 0 EmptyString EmptyString) built_is_ready eq_refl).
Defined.

Lemma generator_exception_text_witness :
  output (generate no_uv repo "cis_lvl1" all_boxes)
  = "Error: uv not found. Install with: curl -LsSf https://astral.sh/uv/install.sh | sh".
Proof.
  exact (generator_exception_text
           no_uv no_uv repo "cis_lvl1" all_boxes
           (FileNotFoundError "[Errno 2] No such file or directory: 'uv'")
           no_uv_is_ready eq_refl).
Defined.

End GenerateMoreScenarios.

Module FlagFacts.
Import PyStr PyStrFacts Shape.

(** The flags handed to the generator are the fixed list [-p -s -D -g]
    with the flags of the unticked boxes left out: each flag is present
    exactly when its box is ticked, and the order never changes. *)
Theorem flags_follow_boxes (boxes : checkboxes) :
  subsequence (build_flags boxes) ["-p"; "-s"; "-D"; "-g"]
  /\ (In "-p" (build_flags boxes) <-> generate_profiles boxes = true)
  /\ (In "-s" (build_flags boxes) <-> generate_scripts boxes = true)
  /\ (In "-D" (build_flags boxes) <-> generate_ddm boxes = true)
  /\ (In "-g" (build_flags boxes) <-> generate_guidance boxes = true).
Proof.
  destruct boxes as [[] [] [] []]; cbn;
    (split; [repeat constructor|]);
    repeat split; intros; try reflexivity; auto 6;
    repeat match goal with
      | Hx : _ \/ _ |- _ => destruct Hx
      | Hx : False |- _ => destruct Hx
      end; discriminate.
Qed.

(** With at least one box ticked, the previewed command is the command
    line the generation cell runs, its arguments joined by single spaces
    (with a line break after [requirements.txt]), preceded by a [cd] to
    the directory the command runs in. *)
Theorem preview_is_the_command_run (_path baseline : string) (boxes : checkboxes) :
  build_flags boxes <> [] ->
  let c := Cmd.generate _path (build_flags boxes)
                        ("baselines/" ++ baseline ++ ".yaml") in
  cwd c = Some _path
  /\ preview_command _path baseline boxes
     = "cd " ++ _path ++ nl
         ++ join " " (firstn 4 (argv c)) ++ " \" ++ nl
         ++ "    " ++ join " " (skipn 4 (argv c)).
Proof.
  intros Hne. cbn zeta. split; [reflexivity|].
  destruct boxes as [[] [] [] []]; try (now elim Hne); reflexivity.
Qed.

Lemma preview_is_the_command_run_witness :
  preview_command "./macos_security" "cis_lvl1" (Checkboxes true true false false)
  = "cd ./macos_security" ++ nl
      ++ "uv run --with-requirements requirements.txt \" ++ nl
      ++ "    python scripts/generate_guidance.py -p -s baselines/cis_lvl1.yaml".
Proof.
  exact (proj2 (preview_is_the_command_run
                  "./macos_security" "cis_lvl1" (Checkboxes true true false false)
                  ltac:(discriminate))).
Defined.

(** Without a ticked box the preview still shows a command, with two
    spaces where the flags would be; the generation cell refuses to run
    it. *)
Example preview_without_flags :
  preview_command "r" "b" (Checkboxes false false false false)
  = "cd r" ++ nl ++ "uv run --with-requirements requirements.txt \" ++ nl
      ++ "    python scripts/generate_guidance.py  baselines/b.yaml".
Proof. reflexivity. Qed.

End FlagFacts.

(** ** The output cells *)

Section OutputFacts.
Context {W : Type} `{World W}.
Import PyStr PyStrFacts Shape TextFacts BaselineCatalog BaselineCatalogFacts.

Ltac run_output :=
  unfold summary_cell, list_cell, open_cell;
  unfold bind, ret, try_except, set_output, add_output, exists_, run, start;
  cbn [world trace output fst snd app].


Lemma strip_spaces (s : string) : all_chars is_space s = true -> strip s = EmptyString.
Proof.
  unfold strip. induction s as [|c s IH]; cbn [all_chars lstrip]; [reflexivity|].
  intros Hs. apply andb_true_iff in Hs. destruct Hs as [-> Hs]. auto.
Qed.



(** The listing cell shows the lines that [find] printed, sorted, under
    the heading of the directory, whatever the exit code of [find], and
    offers the open-folder button. *)
Theorem listing_shows_sorted_lines
        (w w1 : W) (_repo baseline err : string) (ls : list string) (rc : Z) :
  path_exists w (build_dir _repo baseline) = true ->
  ls <> [] ->
  Forall tidy ls ->
  subprocess_run w (Cmd2.find_files (build_dir _repo baseline))
  = (w1, inl (Completed rc (printed ls) err)) ->
  list_cell true _repo baseline (start w)
  = (CellState w1
       [ EvExists (build_dir _repo baseline);
         EvRun (Cmd2.find_files (build_dir _repo baseline)) ]
       ("Files in " ++ build_dir _repo baseline ++ ":" ++ nl ++ nl
          ++ join nl (sorted ls)),
     inl true)
  /\ Permutation (sorted ls) ls
  /\ StronglySorted le (sorted ls).
Proof.
  intros Hex Hne Htidy Hrun. split; [|split].
  - run_output. rewrite Hex. cbn [negb world trace output fst snd app].
    rewrite Hrun. cbn [world trace output fst snd app stdout].
    now rewrite (lines_split_back ls Hne Htidy).
  - apply sorted_Permutation.
  - apply sorted_ordered.
Qed.

(** When [find] prints nothing but white space, the listing cell still
    shows the heading, with no file under it, and still offers the
    open-folder button. *)
Theorem empty_listing_still_offers_open
        (w w1 : W) (_repo baseline out err : string) (rc : Z) :
  path_exists w (build_dir _repo baseline) = true ->
  all_chars is_space out = true ->
  subprocess_run w (Cmd2.find_files (build_dir _repo baseline))
  = (w1, inl (Completed rc out err)) ->
  list_cell true _repo baseline (start w)
  = (CellState w1
       [ EvExists (build_dir _repo baseline);
         EvRun (Cmd2.find_files (build_dir _repo baseline)) ]
       ("Files in " ++ build_dir _repo baseline ++ ":" ++ nl ++ nl),
     inl true).
Proof.
  intros Hex Hout Hrun. run_output. rewrite Hex.
  cbn [negb world trace output fst snd app]. rewrite Hrun.
  cbn [world trace output fst snd app stdout].
  rewrite (strip_spaces out Hout). cbn [split split_from sorted insert_sorted join].
  now rewrite !append_nil_r.
Qed.


End OutputFacts.

Module OutputScenarios.
Import PyStr Shape Scenario.




Lemma three_files_tidy :
  Forall tidy ["./mobileconfigs/b.mobileconfig"; "./cis_lvl1_compliance.sh";
               "./mobileconfigs/a.mobileconfig"].
Proof.
  repeat constructor; try reflexivity; eexists; eexists; split; reflexivity.
Qed.

Lemma listing_shows_sorted_lines_witness :
  list_cell true repo "cis_lvl1" (start built)
  = (CellState built [EvExists build; EvRun (Cmd2.find_files build)]
       ("Files in " ++ build ++ ":" ++ nl ++ nl
          ++ "./cis_lvl1_compliance.sh" ++ nl
          ++ "./mobileconfigs/a.mobileconfig" ++ nl
          ++ "./mobileconfigs/b.mobileconfig"),
     inl true).
Proof.
  exact (proj1 (listing_shows_sorted_lines
                  built built repo "cis_lvl1" EmptyString
                  ["./mobileconfigs/b.mobileconfig"; "./cis_lvl1_compliance.sh";
                   "./mobileconfigs/a.mobileconfig"]
                  0%Z eq_refl ltac:(discriminate) three_files_tidy eq_refl)).
Defined.

Lemma empty_listing_still_offers_open_witness :
  list_cell true repo "cis_lvl1" (start (Scripted [build] []))
  = (CellState (Scripted [build] [])
               [EvExists build; EvRun (Cmd2.find_files build)]
               ("Files in " ++ build ++ ":" ++ nl ++ nl),
     inl true).
Proof.
  exact (empty_listing_still_offers_open
           (Scripted [build] []) (Scripted [build] []) repo "cis_lvl1"
           EmptyString EmptyString 0%Z eq_refl eq_refl eq_refl).
Defined.


End OutputScenarios.

(** ** White space beyond ASCII *)

Module UnicodeScenarios.
Import PyStr Shape Scenario.

Example strip_no_break_space :
  strip ("  sequoia" ++ nbsp ++ nl) = "sequoia".
Proof. reflexivity. Qed.

Example strip_leading_ideographic_space :
  strip (String (byte 227) (String (byte 128) (String (byte 128) "main")) ++ nl)
  = "main".
Proof. reflexivity. Qed.

(** U+200B, the zero-width space, is not white space for [str.strip]. *)
Example strip_keeps_zero_width_space :
  strip ("a" ++ String (byte 226) (String (byte 128) (String (byte 139) EmptyString)))
  = "a" ++ String (byte 226) (String (byte 128) (String (byte 139) EmptyString)).
Proof. reflexivity. Qed.

Example strip_keeps_accented_letter :
  strip ("caf" ++ String (byte 195) (String (byte 169) EmptyString) ++ nl)
  = "caf" ++ String (byte 195) (String (byte 169) EmptyString).
Proof. reflexivity. Qed.

(** The name the probe reads has lost the trailing no-break space, so it
    is the desired branch and the cell pulls. *)
Example no_break_space_branch_pulls :
  current_branch on_sequoia_nbsp repo = Some "sequoia"
  /\ sync_events on_sequoia_nbsp repo "sequoia"
     = [EvExists repo; EvRun (Cmd.rev_parse repo); EvRun (Cmd.pull repo)].
Proof. split; reflexivity. Qed.

End UnicodeScenarios.
